(** * Deep research agent: orchestration engine

    A shallow embedding of the research workflow of the repository
    (routing policy, stagnation detector, search fan-out, analysis node,
    merge operations and the workflow graph) together with the properties
    stated about them.

    Conventions of the embedding.
    - Python [int] is [Z]; [len] is [Z.of_nat (length _)].
    - Python [str] is [string]; characters are read as the code points
      0..255, on which [str.lower] keeps the length.
    - A [dict] read with [.get(key, default)] has the key as an [option]
      field whenever the code may see it missing.
    - A call that can raise returns a [Result]; [Hang] is a call that never
      returns.
    - The language-model and search services are not part of the
      repository: they are fields of the record [Collaborators]. *)

From Stdlib Require Import ZArith Ascii String List Bool Lia.
From stdpp Require Import base option list gmap strings.

Local Open Scope string_scope.
Local Open Scope list_scope.
Local Open Scope Z_scope.

(** ** Python strings *)

Module PyStr.

(** [c.lower()] for one character in the range 0..255: the letters A-Z and
    the capital letters 0xC0-0xDE other than the multiplication sign 0xD7
    move up by 32. *)
Definition lower_char (c : ascii) : ascii :=
  let n := N_of_ascii c in
  if ((65 <=? n) && (n <=? 90))%N then ascii_of_N (n + 32)
  else if ((192 <=? n) && (n <=? 222) && negb (n =? 215))%N
       then ascii_of_N (n + 32)
       else c.

(** [s.lower()] *)
Fixpoint lower (s : string) : string :=
  match s with
  | EmptyString => EmptyString
  | String c s' => String (lower_char c) (lower s')
  end.

(** [s.startswith(p)] *)
Fixpoint starts_with (p s : string) : bool :=
  match p, s with
  | EmptyString, _ => true
  | String _ _, EmptyString => false
  | String a p', String b s' => Ascii.eqb a b && starts_with p' s'
  end.

(** [p in s] *)
Fixpoint contains (p s : string) : bool :=
  starts_with p s ||
  match s with
  | EmptyString => false
  | String _ s' => contains p s'
  end.

(** [len(s)] *)
Definition len (s : string) : Z := Z.of_nat (String.length s).

(** Truth value of a string: non-empty. *)
Definition truthy (s : string) : bool :=
  match s with EmptyString => false | _ => true end.

(** [p] occurs in [s] as a contiguous substring. *)
Definition occurs_in (p s : string) : Prop :=
  exists pre post, s = pre +:+ p +:+ post.

End PyStr.

(** ** Python lists: length and slices *)

Module PyList.
Section Slices.
Context {A : Type}.

Definition len (l : list A) : Z := Z.of_nat (length l).

(** A slice bound [i] is clamped as Python does: a negative bound counts
    from the end, and everything is cut to [0..len]. *)
Definition clamp (l : list A) (i : Z) : nat :=
  if i <? 0 then Z.to_nat (Z.max 0 (len l + i))
  else Z.to_nat (Z.min i (len l)).

(** [l[:n]] *)
Definition slice_to (n : Z) (l : list A) : list A := take (clamp l n) l.

(** [l[n:]] *)
Definition slice_from (n : Z) (l : list A) : list A := drop (clamp l n) l.

(** Truth value of a list: non-empty. *)
Definition truthy (l : list A) : bool :=
  match l with [] => false | _ => true end.
End Slices.
End PyList.

(** ** Results of calls that may raise *)

(** An exception is identified with its message [str(e)]. *)
Definition exn := string.

Inductive Result (A : Type) : Type :=
| Ok (a : A)
| Raise (e : exn)
| Hang.
Arguments Ok {A} a.
Arguments Raise {A} e.
Arguments Hang {A}.

(** Sequencing: an exception, or a call that never returns, ends the
    computation.  With this instance [x ← r; k] is stdpp's notation. *)
#[global] Instance Result_bind : MBind Result := fun A B k r =>
  match r with
  | Ok a => k a
  | Raise e => Raise e
  | Hang => Hang
  end.

(** [try: body except Exception as e: handler(e)] *)
Definition try_except {A} (body : Result A) (handler : exn -> Result A) : Result A :=
  match body with
  | Ok a => Ok a
  | Raise e => handler e
  | Hang => Hang
  end.

(** ** Settings ([config/settings.py]) *)

Record Settings := {
  max_search_depth : Z;
  max_queries_per_depth : Z;
  max_concurrent_searches : Z;
  stagnation_check_iterations : Z;
  openai_max_retries : Z;            (* openai_defaults.max_retries *)
  web_search_model : option string   (* get_model_config("web_search").get("model") *)
}.

(** The field validators of [Settings]. *)
Definition validate_max_depth (v : Z) : bool := (1 <=? v) && (v <=? 10).
Definition validate_max_queries (v : Z) : bool := (1 <=? v) && (v <=? 20).
Definition validate_concurrent (v : Z) : bool := (1 <=? v) && (v <=? 5).
Definition validate_stagnation (v : Z) : bool := (1 <=? v) && (v <=? 5).

(** ** Data model ([models/search_result.py], [models/state.py]) *)

Record WebSearchSource := { url : string; title : string }.

Record WebSearchOutput := {
  ws_query : string;
  search_result : string;
  sources : list WebSearchSource
}.

(** One entry of [search_memory]. *)
Record SearchMemoryEntry := {
  sm_query : string;
  sm_search_result : string;
  sm_sources_count : Z;
  sm_depth : Z
}.

(** [SearchIterationData]; [goal] is the text "Search iteration at depth d",
    kept as its depth [d]. *)
Record SearchIterationData := {
  goal_depth : Z;
  it_queries : list string;
  model_used : option string;
  new_entities : list string;
  sources_found : Z;
  it_sources : option (list WebSearchSource);
  errors : list string
}.

(** A reflection record is a dict; every key is read with [.get]. *)
Record Reflection := {
  analysis_summary : option string;
  r_should_continue : option bool;
  reasoning : option string;
  query_strategy : option string
}.

(** The value stored for an entity is owned by the merge collaborator. *)
Record EntityRecord := {
  ent_type : string;
  ent_mentions : Z
}.

Record GraphNode := {
  n_id : string;
  n_name : string;
  n_type : string
}.

(** [confidence] is a float in the source; it is kept in thousandths. *)
Record GraphEdge := {
  e_source : string;
  e_target : string;
  e_relationship : string;
  e_confidence : Z
}.

(** The graph dict [{"nodes": [...], "edges": [...]}]; either key may be
    missing. *)
Record EntityGraph := {
  g_nodes : option (list GraphNode);
  g_edges : option (list GraphEdge)
}.

Record KeyEntity := {
  ke_entity : string;
  ke_importance : Z;
  ke_reason : string
}.

Record ConnectionMappingOutput := {
  new_nodes : list GraphNode;
  new_edges : list GraphEdge;
  patterns_identified : list string;
  suspicious_patterns : list string;
  key_entities_out : list KeyEntity
}.

(** The part of the final report that the orchestration writes. *)
Record FinalReport := {
  report_body : string;
  md_research_depth : Z;
  md_total_queries : Z;
  md_total_sources : Z;
  md_termination_reason : option string;
  report_entity_graph : EntityGraph
}.

(** [AgentState]: the dict threaded through the workflow, in the shape
    [initialize_session] gives it.  [red_flags], [neutral] and [positive]
    are the three lists of [risk_indicators]; [key_entities] and
    [final_report] are keys that only the finalize path adds.  The clock
    ([start_time]) and the unused [messages] are left out. *)
Record AgentState := {
  session_id : string;
  subject : string;
  subject_context : option string;
  current_depth : Z;
  max_depth : Z;
  queries_executed : list string;
  pending_queries : list string;
  should_continue : bool;
  termination_reason : option string;
  search_count : Z;
  extraction_count : Z;
  error_count : Z;
  iteration_count : Z;
  search_iterations : list SearchIterationData;
  search_memory : list SearchMemoryEntry;
  reflection_memory : list Reflection;
  discovered_entities : gmap string EntityRecord;
  entity_graph : EntityGraph;
  red_flags : list string;
  neutral : list string;
  positive : list string;
  key_entities : option (list KeyEntity);
  final_report : option FinalReport
}.

(** [state[key] = v], one setter per key the workflow assigns. *)
Definition set_current_depth (v : Z) (st : AgentState) : AgentState :=
  {| session_id := session_id st; subject := subject st;
     subject_context := subject_context st; current_depth := v;
     max_depth := max_depth st; queries_executed := queries_executed st;
     pending_queries := pending_queries st;
     should_continue := should_continue st;
     termination_reason := termination_reason st;
     search_count := search_count st; extraction_count := extraction_count st;
     error_count := error_count st; iteration_count := iteration_count st;
     search_iterations := search_iterations st;
     search_memory := search_memory st;
     reflection_memory := reflection_memory st;
     discovered_entities := discovered_entities st;
     entity_graph := entity_graph st; red_flags := red_flags st;
     neutral := neutral st; positive := positive st;
     key_entities := key_entities st; final_report := final_report st |}.

Definition set_queries_executed (v : list string) (st : AgentState) : AgentState :=
  {| session_id := session_id st; subject := subject st;
     subject_context := subject_context st; current_depth := current_depth st;
     max_depth := max_depth st; queries_executed := v;
     pending_queries := pending_queries st;
     should_continue := should_continue st;
     termination_reason := termination_reason st;
     search_count := search_count st; extraction_count := extraction_count st;
     error_count := error_count st; iteration_count := iteration_count st;
     search_iterations := search_iterations st;
     search_memory := search_memory st;
     reflection_memory := reflection_memory st;
     discovered_entities := discovered_entities st;
     entity_graph := entity_graph st; red_flags := red_flags st;
     neutral := neutral st; positive := positive st;
     key_entities := key_entities st; final_report := final_report st |}.

Definition set_pending_queries (v : list string) (st : AgentState) : AgentState :=
  {| session_id := session_id st; subject := subject st;
     subject_context := subject_context st; current_depth := current_depth st;
     max_depth := max_depth st; queries_executed := queries_executed st;
     pending_queries := v; should_continue := should_continue st;
     termination_reason := termination_reason st;
     search_count := search_count st; extraction_count := extraction_count st;
     error_count := error_count st; iteration_count := iteration_count st;
     search_iterations := search_iterations st;
     search_memory := search_memory st;
     reflection_memory := reflection_memory st;
     discovered_entities := discovered_entities st;
     entity_graph := entity_graph st; red_flags := red_flags st;
     neutral := neutral st; positive := positive st;
     key_entities := key_entities st; final_report := final_report st |}.

Definition set_should_continue (v : bool) (st : AgentState) : AgentState :=
  {| session_id := session_id st; subject := subject st;
     subject_context := subject_context st; current_depth := current_depth st;
     max_depth := max_depth st; queries_executed := queries_executed st;
     pending_queries := pending_queries st; should_continue := v;
     termination_reason := termination_reason st;
     search_count := search_count st; extraction_count := extraction_count st;
     error_count := error_count st; iteration_count := iteration_count st;
     search_iterations := search_iterations st;
     search_memory := search_memory st;
     reflection_memory := reflection_memory st;
     discovered_entities := discovered_entities st;
     entity_graph := entity_graph st; red_flags := red_flags st;
     neutral := neutral st; positive := positive st;
     key_entities := key_entities st; final_report := final_report st |}.

Definition set_termination_reason (v : option string) (st : AgentState) : AgentState :=
  {| session_id := session_id st; subject := subject st;
     subject_context := subject_context st; current_depth := current_depth st;
     max_depth := max_depth st; queries_executed := queries_executed st;
     pending_queries := pending_queries st;
     should_continue := should_continue st; termination_reason := v;
     search_count := search_count st; extraction_count := extraction_count st;
     error_count := error_count st; iteration_count := iteration_count st;
     search_iterations := search_iterations st;
     search_memory := search_memory st;
     reflection_memory := reflection_memory st;
     discovered_entities := discovered_entities st;
     entity_graph := entity_graph st; red_flags := red_flags st;
     neutral := neutral st; positive := positive st;
     key_entities := key_entities st; final_report := final_report st |}.

Definition set_search_count (v : Z) (st : AgentState) : AgentState :=
  {| session_id := session_id st; subject := subject st;
     subject_context := subject_context st; current_depth := current_depth st;
     max_depth := max_depth st; queries_executed := queries_executed st;
     pending_queries := pending_queries st;
     should_continue := should_continue st;
     termination_reason := termination_reason st; search_count := v;
     extraction_count := extraction_count st; error_count := error_count st;
     iteration_count := iteration_count st;
     search_iterations := search_iterations st;
     search_memory := search_memory st;
     reflection_memory := reflection_memory st;
     discovered_entities := discovered_entities st;
     entity_graph := entity_graph st; red_flags := red_flags st;
     neutral := neutral st; positive := positive st;
     key_entities := key_entities st; final_report := final_report st |}.

Definition set_error_count (v : Z) (st : AgentState) : AgentState :=
  {| session_id := session_id st; subject := subject st;
     subject_context := subject_context st; current_depth := current_depth st;
     max_depth := max_depth st; queries_executed := queries_executed st;
     pending_queries := pending_queries st;
     should_continue := should_continue st;
     termination_reason := termination_reason st;
     search_count := search_count st; extraction_count := extraction_count st;
     error_count := v; iteration_count := iteration_count st;
     search_iterations := search_iterations st;
     search_memory := search_memory st;
     reflection_memory := reflection_memory st;
     discovered_entities := discovered_entities st;
     entity_graph := entity_graph st; red_flags := red_flags st;
     neutral := neutral st; positive := positive st;
     key_entities := key_entities st; final_report := final_report st |}.

Definition set_iteration_count (v : Z) (st : AgentState) : AgentState :=
  {| session_id := session_id st; subject := subject st;
     subject_context := subject_context st; current_depth := current_depth st;
     max_depth := max_depth st; queries_executed := queries_executed st;
     pending_queries := pending_queries st;
     should_continue := should_continue st;
     termination_reason := termination_reason st;
     search_count := search_count st; extraction_count := extraction_count st;
     error_count := error_count st; iteration_count := v;
     search_iterations := search_iterations st;
     search_memory := search_memory st;
     reflection_memory := reflection_memory st;
     discovered_entities := discovered_entities st;
     entity_graph := entity_graph st; red_flags := red_flags st;
     neutral := neutral st; positive := positive st;
     key_entities := key_entities st; final_report := final_report st |}.

Definition set_search_iterations (v : list SearchIterationData) (st : AgentState) : AgentState :=
  {| session_id := session_id st; subject := subject st;
     subject_context := subject_context st; current_depth := current_depth st;
     max_depth := max_depth st; queries_executed := queries_executed st;
     pending_queries := pending_queries st;
     should_continue := should_continue st;
     termination_reason := termination_reason st;
     search_count := search_count st; extraction_count := extraction_count st;
     error_count := error_count st; iteration_count := iteration_count st;
     search_iterations := v; search_memory := search_memory st;
     reflection_memory := reflection_memory st;
     discovered_entities := discovered_entities st;
     entity_graph := entity_graph st; red_flags := red_flags st;
     neutral := neutral st; positive := positive st;
     key_entities := key_entities st; final_report := final_report st |}.

Definition set_search_memory (v : list SearchMemoryEntry) (st : AgentState) : AgentState :=
  {| session_id := session_id st; subject := subject st;
     subject_context := subject_context st; current_depth := current_depth st;
     max_depth := max_depth st; queries_executed := queries_executed st;
     pending_queries := pending_queries st;
     should_continue := should_continue st;
     termination_reason := termination_reason st;
     search_count := search_count st; extraction_count := extraction_count st;
     error_count := error_count st; iteration_count := iteration_count st;
     search_iterations := search_iterations st; search_memory := v;
     reflection_memory := reflection_memory st;
     discovered_entities := discovered_entities st;
     entity_graph := entity_graph st; red_flags := red_flags st;
     neutral := neutral st; positive := positive st;
     key_entities := key_entities st; final_report := final_report st |}.

Definition set_reflection_memory (v : list Reflection) (st : AgentState) : AgentState :=
  {| session_id := session_id st; subject := subject st;
     subject_context := subject_context st; current_depth := current_depth st;
     max_depth := max_depth st; queries_executed := queries_executed st;
     pending_queries := pending_queries st;
     should_continue := should_continue st;
     termination_reason := termination_reason st;
     search_count := search_count st; extraction_count := extraction_count st;
     error_count := error_count st; iteration_count := iteration_count st;
     search_iterations := search_iterations st;
     search_memory := search_memory st; reflection_memory := v;
     discovered_entities := discovered_entities st;
     entity_graph := entity_graph st; red_flags := red_flags st;
     neutral := neutral st; positive := positive st;
     key_entities := key_entities st; final_report := final_report st |}.

Definition set_discovered_entities (v : gmap string EntityRecord) (st : AgentState) : AgentState :=
  {| session_id := session_id st; subject := subject st;
     subject_context := subject_context st; current_depth := current_depth st;
     max_depth := max_depth st; queries_executed := queries_executed st;
     pending_queries := pending_queries st;
     should_continue := should_continue st;
     termination_reason := termination_reason st;
     search_count := search_count st; extraction_count := extraction_count st;
     error_count := error_count st; iteration_count := iteration_count st;
     search_iterations := search_iterations st;
     search_memory := search_memory st;
     reflection_memory := reflection_memory st; discovered_entities := v;
     entity_graph := entity_graph st; red_flags := red_flags st;
     neutral := neutral st; positive := positive st;
     key_entities := key_entities st; final_report := final_report st |}.

Definition set_entity_graph (v : EntityGraph) (st : AgentState) : AgentState :=
  {| session_id := session_id st; subject := subject st;
     subject_context := subject_context st; current_depth := current_depth st;
     max_depth := max_depth st; queries_executed := queries_executed st;
     pending_queries := pending_queries st;
     should_continue := should_continue st;
     termination_reason := termination_reason st;
     search_count := search_count st; extraction_count := extraction_count st;
     error_count := error_count st; iteration_count := iteration_count st;
     search_iterations := search_iterations st;
     search_memory := search_memory st;
     reflection_memory := reflection_memory st;
     discovered_entities := discovered_entities st; entity_graph := v;
     red_flags := red_flags st; neutral := neutral st; positive := positive st;
     key_entities := key_entities st; final_report := final_report st |}.

Definition set_red_flags (v : list string) (st : AgentState) : AgentState :=
  {| session_id := session_id st; subject := subject st;
     subject_context := subject_context st; current_depth := current_depth st;
     max_depth := max_depth st; queries_executed := queries_executed st;
     pending_queries := pending_queries st;
     should_continue := should_continue st;
     termination_reason := termination_reason st;
     search_count := search_count st; extraction_count := extraction_count st;
     error_count := error_count st; iteration_count := iteration_count st;
     search_iterations := search_iterations st;
     search_memory := search_memory st;
     reflection_memory := reflection_memory st;
     discovered_entities := discovered_entities st;
     entity_graph := entity_graph st; red_flags := v; neutral := neutral st;
     positive := positive st; key_entities := key_entities st;
     final_report := final_report st |}.

Definition set_key_entities (v : option (list KeyEntity)) (st : AgentState) : AgentState :=
  {| session_id := session_id st; subject := subject st;
     subject_context := subject_context st; current_depth := current_depth st;
     max_depth := max_depth st; queries_executed := queries_executed st;
     pending_queries := pending_queries st;
     should_continue := should_continue st;
     termination_reason := termination_reason st;
     search_count := search_count st; extraction_count := extraction_count st;
     error_count := error_count st; iteration_count := iteration_count st;
     search_iterations := search_iterations st;
     search_memory := search_memory st;
     reflection_memory := reflection_memory st;
     discovered_entities := discovered_entities st;
     entity_graph := entity_graph st; red_flags := red_flags st;
     neutral := neutral st; positive := positive st; key_entities := v;
     final_report := final_report st |}.

Definition set_final_report (v : option FinalReport) (st : AgentState) : AgentState :=
  {| session_id := session_id st; subject := subject st;
     subject_context := subject_context st; current_depth := current_depth st;
     max_depth := max_depth st; queries_executed := queries_executed st;
     pending_queries := pending_queries st;
     should_continue := should_continue st;
     termination_reason := termination_reason st;
     search_count := search_count st; extraction_count := extraction_count st;
     error_count := error_count st; iteration_count := iteration_count st;
     search_iterations := search_iterations st;
     search_memory := search_memory st;
     reflection_memory := reflection_memory st;
     discovered_entities := discovered_entities st;
     entity_graph := entity_graph st; red_flags := red_flags st;
     neutral := neutral st; positive := positive st;
     key_entities := key_entities st; final_report := v |}.

(** ** Collaborators

    The services behind the request/response boundary.  Each field is one
    awaited call of the source; what it answers is not fixed by the
    repository.  A call made inside the retry wrapper also receives the
    number of the attempt, since every attempt is a fresh request. *)

Record Collaborators := {
  (* ClaudeService.extract_structured(SearchQueriesList), initial prompt:
     subject, context; the answer is the dict's "queries" key *)
  initial_queries_llm : string -> option string -> Result (option (list string));
  (* the same with the refined prompt: subject, query_strategy,
     queries_executed, len(discovered_entities), current_depth *)
  refined_queries_llm :
    string -> string -> list string -> Z -> Z -> Result (option (list string));
  (* OpenAIService.web_search(query, context) *)
  openai_web_search : string -> string -> Result WebSearchOutput;
  (* ClaudeService.extract_structured(ReflectionOutput) on the prompt built
     from the state *)
  reflection_llm : AgentState -> Result Reflection;
  (* Runner.run of the EntityMerger agent: final_output.merged_entities *)
  entity_merge_run :
    gmap string EntityRecord -> string -> nat -> Result (gmap string EntityRecord);
  (* Runner.run of the GraphMerger agent: final_output.merged_graph *)
  graph_merge_run :
    EntityGraph -> list GraphNode -> list GraphEdge -> nat -> Result EntityGraph;
  (* OpenAIService.map_entity_connections *)
  map_entity_connections :
    gmap string EntityRecord -> list Reflection -> EntityGraph ->
    Result ConnectionMappingOutput;
  (* Runner.run of the ReportSynthesizer agent *)
  synthesis_run : AgentState -> Result string
}.

(** ** Retry wrapper ([utils/research_utils.py]) *)

(** The lines [retry_agent_execution] writes to the module logger. *)
Inductive LogEvent :=
| LogAttemptSucceeded (attempt : Z)
| LogAttemptFailed (attempt max_retries : Z) (msg : exn)
| LogRetryingIn (delay : Z)
| LogRetriesExhausted (max_retries : Z).

(** The loop [for attempt in range(max_retries)], [remaining] attempts
    before the range is exhausted.  [delay] starts at 1.0 and doubles; it
    is a whole number of seconds throughout. *)
Fixpoint retry_loop {A} (agent_func : nat -> Result A) (max_retries : Z)
    (remaining : nat) (attempt : nat) (delay : Z) (last_exception : option exn)
    : Result A * list LogEvent :=
  match remaining with
  | O =>
      (Raise (default "TypeError: exceptions must derive from BaseException"
                      last_exception),
       [LogRetriesExhausted max_retries])
  | S remaining' =>
      match agent_func attempt with
      | Ok result =>
          (Ok result,
           if 0 <? Z.of_nat attempt
           then [LogAttemptSucceeded (Z.of_nat attempt + 1)] else [])
      | Raise e =>
          let failed := LogAttemptFailed (Z.of_nat attempt + 1) max_retries e in
          if Z.of_nat attempt <? max_retries - 1 then
            let '(r, log) := retry_loop agent_func max_retries remaining'
                               (S attempt) (delay * 2) (Some e) in
            (r, failed :: LogRetryingIn delay :: log)
          else
            let '(r, log) := retry_loop agent_func max_retries remaining'
                               (S attempt) delay (Some e) in
            (r, failed :: log)
      | Hang => (Hang, [])
      end
  end.

Definition retry_agent_execution {A} (agent_func : nat -> Result A)
    (max_retries : Z) : Result A * list LogEvent :=
  retry_loop agent_func max_retries (Z.to_nat max_retries) 0 1 None.

(** ** Merge operations ([utils/research_utils.py]) *)

(** Truth value of a dict: non-empty. *)
Definition entities_truthy (m : gmap string EntityRecord) : bool :=
  bool_decide (m ≠ ∅).

Definition graph_truthy (g : EntityGraph) : bool :=
  match g_nodes g, g_edges g with
  | None, None => false
  | _, _ => true
  end.

(** Returns the merged mapping together with the lines logged. *)
Definition merge_entities_with_llm (cfg : Settings) (env : Collaborators)
    (existing_entities : gmap string EntityRecord) (analysis_summary : string)
    : Result (gmap string EntityRecord) * list LogEvent :=
  if negb (PyStr.truthy analysis_summary) then
    (* existing_entities or {} *)
    (Ok existing_entities, [])
  else
    let '(result, log) :=
      retry_agent_execution (entity_merge_run env existing_entities analysis_summary)
                            (openai_max_retries cfg) in
    (merged_entities ← result;
     Ok (if entities_truthy merged_entities then merged_entities
         else existing_entities),
     log).

Definition merge_graph_with_llm (cfg : Settings) (env : Collaborators)
    (existing_graph : EntityGraph) (new_nodes : list GraphNode)
    (new_edges : list GraphEdge) : Result EntityGraph * list LogEvent :=
  (* Initialize empty graph if needed *)
  let existing_graph :=
    if negb (graph_truthy existing_graph)
    then {| g_nodes := Some []; g_edges := Some [] |} else existing_graph in
  if negb (PyList.truthy new_nodes) && negb (PyList.truthy new_edges) then
    (Ok existing_graph, [])
  else
    (* Validate existing graph structure *)
    let existing_graph :=
      {| g_nodes := Some (default [] (g_nodes existing_graph));
         g_edges := Some (default [] (g_edges existing_graph)) |} in
    let '(result, log) :=
      retry_agent_execution (graph_merge_run env existing_graph new_nodes new_edges)
                            (openai_max_retries cfg) in
    (merged_graph ← result;
     Ok (if graph_truthy merged_graph then merged_graph else existing_graph),
     log).

(** ** Stagnation detector ([utils/research_utils.py]) *)

Definition stagnation_indicators : list string :=
  [ "no new entities";
    "no significant findings";
    "limited new information";
    "no new information";
    "entities discovered: none";
    "entities discovered:" +:+ String (ascii_of_nat 10) "none";
    "nothing new discovered" ].

(** The body of the loop over the recent reflections: whether one
    reflection counts towards [stagnant_count]. *)
Definition is_stagnant (reflection : Reflection) : bool :=
  let analysis := PyStr.lower (default "" (analysis_summary reflection)) in
  let has_indicator :=
    existsb (fun indicator => PyStr.contains indicator analysis)
            stagnation_indicators in
  let is_too_short := PyStr.len analysis <? 200 in
  has_indicator || is_too_short.

Definition check_stagnation (cfg : Settings) (reflection_memory : list Reflection)
    (n_iterations : option Z) : bool :=
  let n_iterations := default (stagnation_check_iterations cfg) n_iterations in
  (* Validate inputs *)
  if negb (PyList.truthy reflection_memory) || (n_iterations <=? 0) then false
  (* Need at least N reflections to check *)
  else if PyList.len reflection_memory <? n_iterations then false
  else
    let recent_reflections := PyList.slice_from (- n_iterations) reflection_memory in
    let stagnant_count :=
      fold_left (fun count reflection =>
                   if is_stagnant reflection then count + 1 else count)
                recent_reflections 0 in
    n_iterations <=? stagnant_count.

(** ** Routing ([agents/edges/routing.py]) *)

(** A routing function returns the name of the route and the state, whose
    [termination_reason] it may have assigned. *)
Definition should_continue_research (cfg : Settings) (state : AgentState)
    : string * AgentState :=
  let current_depth := current_depth state in
  let max_depth := max_depth state in
  (* 1. Check hard limit: max depth *)
  if max_depth <=? current_depth then
    ("finalize", set_termination_reason (Some "max_depth_reached") state)
  else
    (* 2. Check reflection decision *)
    let reflection_memory := reflection_memory state in
    let stop :=
      match last reflection_memory with
      | Some latest_reflection =>
          negb (default true (r_should_continue latest_reflection))
      | None => false
      end in
    if stop then
      ("finalize", set_termination_reason (Some "reflection_recommended_stop") state)
    (* 3. Check stagnation *)
    else if check_stagnation cfg reflection_memory
                             (Some (stagnation_check_iterations cfg)) then
      ("finalize", set_termination_reason (Some "stagnation_detected") state)
    (* 4. Continue searching *)
    else ("continue_search", state).

Definition has_new_queries (state : AgentState) : string * AgentState :=
  if PyList.truthy (pending_queries state) then ("search_more", state)
  else ("synthesize", set_termination_reason (Some "no_additional_queries") state).

(** ** Query generation ([services/search/query_generator.py],
       [agents/nodes/generate_queries.py]) *)

Definition generate_initial_queries (env : Collaborators) (subject : string)
    (context : option string) : Result (list string) :=
  result ← initial_queries_llm env subject context;
  Ok (default [subject +:+ " background information"] result).

Definition generate_refined_queries (env : Collaborators) (subject : string)
    (reflection_memory : list Reflection) (queries_executed : list string)
    (discovered_entities : gmap string EntityRecord) (current_depth : Z)
    : Result (list string) :=
  match last reflection_memory with
  | None => generate_initial_queries env subject None
  | Some latest_reflection =>
      let query_strategy := default "" (query_strategy latest_reflection) in
      result ← refined_queries_llm env subject query_strategy queries_executed
                 (Z.of_nat (size discovered_entities)) current_depth;
      Ok (default [] result)
  end.

Definition generate_search_queries (env : Collaborators) (state : AgentState)
    : Result AgentState :=
  let current_depth := current_depth state in
  try_except
    (queries ←
       (if current_depth =? 0
        then generate_initial_queries env (subject state) (subject_context state)
        else generate_refined_queries env (subject state) (reflection_memory state)
               (queries_executed state) (discovered_entities state) current_depth);
     let state := set_pending_queries queries state in
     Ok (set_iteration_count (iteration_count state + 1) state))
    (fun e =>
       let state := set_error_count (error_count state + 1) state in
       Ok (set_pending_queries [] state)).

(** ** Search fan-out ([services/search/web_search.py]) *)

(** [await asyncio.gather( *tasks )] once every task has settled: the
    results in task order, or the exception of a task that raised.  Which
    exception is propagated when several tasks raise depends on the order
    in which they finish; the first in task order stands for it. *)
Fixpoint gather {A} (tasks : list (Result A)) : Result (list A) :=
  match tasks with
  | [] => Ok []
  | t :: tasks' =>
      match t with
      | Ok a =>
          match gather tasks' with
          | Ok rest => Ok (a :: rest)
          | Raise e => Raise e
          | Hang => Hang
          end
      | Raise e => Raise e
      | Hang => match gather tasks' with Raise e => Raise e | _ => Hang end
      end
  end.

(** [SearchExecutor.parallel_search].  [asyncio.Semaphore] rejects a
    negative value; with the value 0 no task ever gets a permit. *)
Definition parallel_search (env : Collaborators) (queries : list string)
    (search_context : string) (max_concurrent : Z) : Result (list WebSearchOutput) :=
  if max_concurrent <? 0 then Raise "Semaphore initial value must be >= 0"
  else if (max_concurrent =? 0) && PyList.truthy queries then Hang
  else gather (map (fun q => openai_web_search env q search_context) queries).

(** ** Search node ([agents/nodes/web_search.py]) *)

(** What the loop over [zip(queries, results)] accumulates. *)
Record SearchTally := {
  total_sources : Z;
  iteration_search_memories : list SearchMemoryEntry;
  all_sources : list WebSearchSource
}.

Definition tally_result (current_depth : Z) (acc : SearchTally)
    (qr : string * WebSearchOutput) : SearchTally :=
  let '(query, result) := qr in
  let sources_count :=
    if PyList.truthy (sources result) then PyList.len (sources result) else 0 in
  {| total_sources := total_sources acc + sources_count;
     iteration_search_memories :=
       if PyStr.truthy (search_result result) then
         iteration_search_memories acc ++
           [{| sm_query := query;
               sm_search_result := search_result result;
               sm_sources_count := sources_count;
               sm_depth := current_depth |}]
       else iteration_search_memories acc;
     all_sources :=
       if PyList.truthy (sources result)
       then all_sources acc ++ sources result else all_sources acc |}.

Definition tally_results (current_depth : Z) (queries : list string)
    (results : list WebSearchOutput) : SearchTally :=
  fold_left (tally_result current_depth) (zip queries results)
            {| total_sources := 0; iteration_search_memories := [];
               all_sources := [] |}.

(** The cap handed to [parallel_search] is
    [state.get("max_concurrent_searches", 5)]; the state has no such key,
    so it is always the default. *)
Definition state_max_concurrent_searches : Z := 5.

Definition execute_web_search (cfg : Settings) (env : Collaborators)
    (state : AgentState) : Result AgentState :=
  let queries := pending_queries state in
  if negb (PyList.truthy queries) then Ok state
  else
    let search_context := "Due diligence investigation of " +:+ subject state in
    let current_depth := current_depth state in
    let batch := PyList.slice_to (max_queries_per_depth cfg) queries in
    let iteration_data :=
      {| goal_depth := current_depth;
         it_queries := batch;
         model_used := web_search_model cfg;
         new_entities := [];
         sources_found := 0;
         it_sources := None;
         errors := [] |} in
    '(state, iteration_data) ←
      try_except
        (results ← parallel_search env batch search_context
                     state_max_concurrent_searches;
         let tally := tally_results current_depth batch results in
         let iteration_data :=
           {| goal_depth := goal_depth iteration_data;
              it_queries := it_queries iteration_data;
              model_used := model_used iteration_data;
              new_entities := new_entities iteration_data;
              sources_found := total_sources tally;
              it_sources := Some (all_sources tally);
              errors := errors iteration_data |} in
         let state :=
           set_search_memory
             (search_memory state ++ iteration_search_memories tally) state in
         let state :=
           set_queries_executed (queries_executed state ++ batch) state in
         let state :=
           set_pending_queries
             (PyList.slice_from (max_queries_per_depth cfg) queries) state in
         let state :=
           set_search_count (search_count state + PyList.len results) state in
         Ok (state, iteration_data))
        (fun e =>
           let state := set_error_count (error_count state + 1) state in
           Ok (state,
               {| goal_depth := goal_depth iteration_data;
                  it_queries := it_queries iteration_data;
                  model_used := model_used iteration_data;
                  new_entities := new_entities iteration_data;
                  sources_found := sources_found iteration_data;
                  it_sources := it_sources iteration_data;
                  errors := errors iteration_data ++ [e] |}));
    Ok (set_search_iterations (search_iterations state ++ [iteration_data]) state).

(** ** Analysis node ([agents/nodes/analyze.py]) *)

Definition analyze_and_reflect (cfg : Settings) (env : Collaborators)
    (state : AgentState) : Result AgentState :=
  (* Validate required fields *)
  if negb (PyList.truthy (search_memory state)) then Ok state
  else
    reflection_result ← reflection_llm env state;
    merged_entities ←
      fst (merge_entities_with_llm cfg env (discovered_entities state)
             (default "" (analysis_summary reflection_result)));
    let state :=
      set_reflection_memory (reflection_memory state ++ [reflection_result]) state in
    let state := set_discovered_entities merged_entities state in
    let state :=
      set_should_continue (default true (r_should_continue reflection_result)) state in
    (* Increment depth after completing current iteration *)
    Ok (set_current_depth (current_depth state + 1) state).

(** ** Connection mapping node ([agents/nodes/connect.py]) *)

Definition map_connections (cfg : Settings) (env : Collaborators)
    (state : AgentState) : Result AgentState :=
  if negb (entities_truthy (discovered_entities state)) then Ok state
  else
    connection_output ←
      map_entity_connections env (discovered_entities state)
        (reflection_memory state) (entity_graph state);
    merged_graph ←
      fst (merge_graph_with_llm cfg env (entity_graph state)
             (new_nodes connection_output) (new_edges connection_output));
    let state := set_entity_graph merged_graph state in
    let state :=
      set_red_flags (red_flags state ++ suspicious_patterns connection_output) state in
    Ok (set_key_entities (Some (key_entities_out connection_output)) state).

(** ** Synthesis node ([agents/nodes/synthesize.py]) *)

Definition option_truthy (o : option string) : bool :=
  match o with Some s => PyStr.truthy s | None => false end.

(** When the synthesis raises, the handler records the error in the state
    and raises again: the node has no result and the run ends there. *)
Definition synthesize_report (env : Collaborators) (state : AgentState)
    : Result AgentState :=
  report ← synthesis_run env state;
  let final_report :=
    {| report_body := report;
       md_research_depth := current_depth state;
       md_total_queries := PyList.len (queries_executed state);
       md_total_sources :=
         fold_left (fun acc s => acc + sources_found s) (search_iterations state) 0;
       md_termination_reason := termination_reason state;
       report_entity_graph := entity_graph state |} in
  let state := set_final_report (Some final_report) state in
  (* Mark as complete *)
  let state := set_should_continue false state in
  Ok (if negb (option_truthy (termination_reason state))
      then set_termination_reason (Some "report_synthesized") state
      else state).

(** ** Initialization node ([agents/nodes/initialize.py]) *)

(** The dict [DeepResearchAgent.research] starts the graph with. *)
Record InitialState := {
  i_session_id : string;
  i_subject : string;
  i_subject_context : option string;
  i_max_depth : Z
}.

(** [max_depth or settings.max_search_depth] in [research]. *)
Definition research_max_depth (cfg : Settings) (max_depth : option Z) : Z :=
  match max_depth with
  | Some d => if d =? 0 then max_search_depth cfg else d
  | None => max_search_depth cfg
  end.

Definition initialize_session (state : InitialState) : Result AgentState :=
  if negb (PyStr.truthy (i_subject state))
  then Raise "State must contain 'subject' field"
  else
    Ok {| session_id := i_session_id state;
          subject := i_subject state;
          subject_context := i_subject_context state;
          current_depth := 0;
          max_depth := i_max_depth state;
          queries_executed := [];
          pending_queries := [];
          should_continue := true;
          termination_reason := None;
          search_count := 0;
          extraction_count := 0;
          error_count := 0;
          iteration_count := 0;
          search_iterations := [];
          search_memory := [];
          reflection_memory := [];
          discovered_entities := ∅;
          entity_graph := {| g_nodes := Some []; g_edges := Some [] |};
          red_flags := [];
          neutral := [];
          positive := [];
          key_entities := None;
          final_report := None |}.

(** ** Workflow graph ([agents/graph.py], run as in [main.py]) *)

(** The nodes [_add_workflow_nodes] registers, other than [initialize],
    whose input is the caller's dict. *)
Inductive Node :=
| N_generate_queries
| N_execute_search
| N_analyze_and_reflect
| N_map_connections
| N_synthesize_report.

#[global] Instance Node_eq_dec : EqDecision Node.
Proof. solve_decision. Defined.

Definition run_node (cfg : Settings) (env : Collaborators) (n : Node)
    (state : AgentState) : Result AgentState :=
  match n with
  | N_generate_queries => generate_search_queries env state
  | N_execute_search => execute_web_search cfg env state
  | N_analyze_and_reflect => analyze_and_reflect cfg env state
  | N_map_connections => map_connections cfg env state
  | N_synthesize_report => synthesize_report env state
  end.

(** The mapping given to [add_conditional_edges]. *)
Definition conditional_edges (route : string) : option Node :=
  if String.eqb route "continue_search" then Some N_generate_queries
  else if String.eqb route "finalize" then Some N_map_connections
  else None.

Inductive Next :=
| Goto (n : Node)
| End
| NoSuchRoute (route : string).

(** [_add_workflow_edges]: where the run goes after node [n].  The routing
    function assigns into the state dict it is handed; that dict is the one
    the run continues with. *)
Definition follow_edges (cfg : Settings) (n : Node) (state : AgentState)
    : Next * AgentState :=
  match n with
  | N_generate_queries => (Goto N_execute_search, state)
  | N_execute_search => (Goto N_analyze_and_reflect, state)
  | N_analyze_and_reflect =>
      let '(route, state) := should_continue_research cfg state in
      (match conditional_edges route with
       | Some n' => Goto n'
       | None => NoSuchRoute route
       end, state)
  | N_map_connections => (Goto N_synthesize_report, state)
  | N_synthesize_report => (End, state)
  end.

(** One executed node: the state it received and the state it returned. *)
Record Step := {
  step_node : Node;
  step_pre : AgentState;
  step_post : AgentState
}.

Inductive RunOutcome :=
| Completed (final_state : AgentState)
| Failed (e : exn)
| NeverReturns
| GraphRecursionError.

(** The run from node [n], with [limit] node executions left of the
    [recursion_limit]. *)
Fixpoint run_from (cfg : Settings) (env : Collaborators) (limit : nat)
    (n : Node) (state : AgentState) : list Step * RunOutcome :=
  match limit with
  | O => ([], GraphRecursionError)
  | S limit' =>
      match run_node cfg env n state with
      | Raise e => ([], Failed e)
      | Hang => ([], NeverReturns)
      | Ok post =>
          let step := {| step_node := n; step_pre := state; step_post := post |} in
          match follow_edges cfg n post with
          | (End, final) => ([step], Completed final)
          | (NoSuchRoute route, _) => ([step], Failed ("KeyError: " +:+ route))
          | (Goto n', state') =>
              let '(steps, outcome) := run_from cfg env limit' n' state' in
              (step :: steps, outcome)
          end
      end
  end.

(** [research_graph.ainvoke(initial_state, config)]: the entry point is
    [initialize], followed by the edge to [generate_queries]. *)
Definition run_graph (cfg : Settings) (env : Collaborators)
    (recursion_limit : nat) (initial_state : InitialState)
    : list Step * RunOutcome :=
  match recursion_limit with
  | O => ([], GraphRecursionError)
  | S limit =>
      match initialize_session initial_state with
      | Ok state => run_from cfg env limit N_generate_queries state
      | Raise e => ([], Failed e)
      | Hang => ([], NeverReturns)
      end
  end.

(** [_build_execution_config]: "Allow up to 100 node executions". *)
Definition recursion_limit : nat := 100.

(** The steps of a run that executed node [n]. *)
Definition steps_of (n : Node) (steps : list Step) : list Step :=
  filter (fun s => step_node s = n) steps.

(** ** The search fan-out as a transition system

    [parallel_search] starts one task per query; a task waits for the
    semaphore, holds it while its search is in flight, and gives it back
    when the search settles.  The event loop interleaves the tasks in any
    order: a schedule is a list of events. *)

Module Fanout.

Inductive TaskStatus :=
| Waiting
| InFlight
| Settled (r : Result WebSearchOutput).

Record Pool := {
  permits : Z;                    (* the value of the semaphore *)
  tasks : list TaskStatus;        (* one per query, in query order *)
  raised : option exn             (* the first exception gather saw *)
}.

Inductive Event :=
| Acquire (i : nat)      (* task i enters [async with semaphore] *)
| Settle (i : nat).      (* the search of task i returns or raises *)

(** [asyncio.Semaphore(max_concurrent)] followed by the creation of the
    tasks. *)
Definition start (max_concurrent : Z) (queries : list string) : Result Pool :=
  if max_concurrent <? 0 then Raise "Semaphore initial value must be >= 0"
  else Ok {| permits := max_concurrent;
             tasks := replicate (length queries) Waiting;
             raised := None |}.

Definition step (search : string -> Result WebSearchOutput)
    (queries : list string) (p : Pool) (ev : Event) : option Pool :=
  match ev with
  | Acquire i =>
      match tasks p !! i with
      | Some Waiting =>
          if 0 <? permits p
          then Some {| permits := permits p - 1;
                       tasks := <[i := InFlight]> (tasks p);
                       raised := raised p |}
          else None
      | _ => None
      end
  | Settle i =>
      match tasks p !! i, queries !! i with
      | Some InFlight, Some q =>
          match search q with
          | Hang => None
          | r =>
              Some {| permits := permits p + 1;
                      tasks := <[i := Settled r]> (tasks p);
                      raised :=
                        match raised p, r with
                        | None, Raise e => Some e
                        | seen, _ => seen
                        end |}
          end
      | _, _ => None
      end
  end.

(** A schedule is run event by event; an event that is not enabled makes
    the schedule impossible. *)
Fixpoint run (search : string -> Result WebSearchOutput)
    (queries : list string) (p : Pool) (schedule : list Event) : option Pool :=
  match schedule with
  | [] => Some p
  | ev :: schedule' =>
      match step search queries p ev with
      | Some p' => run search queries p' schedule'
      | None => None
      end
  end.

#[global] Instance TaskStatus_InFlight_dec (t : TaskStatus) : Decision (t = InFlight).
Proof. destruct t; [right | left | right]; congruence. Defined.

(** The number of searches in flight. *)
Definition in_flight (p : Pool) : Z :=
  PyList.len (filter (fun t => t = InFlight) (tasks p)).

(** The results of the tasks in task order, once all have returned. *)
Fixpoint all_returned (ts : list TaskStatus) : option (list WebSearchOutput) :=
  match ts with
  | [] => Some []
  | Settled (Ok r) :: ts' =>
      match all_returned ts' with
      | Some rs => Some (r :: rs)
      | None => None
      end
  | _ :: _ => None
  end.

(** What [await asyncio.gather( *tasks )] has produced in pool [p], if it
    has produced anything: the exception of the first task that raised,
    or the list of results once every task has returned. *)
Definition gathered (p : Pool) : option (Result (list WebSearchOutput)) :=
  match raised p with
  | Some e => Some (Raise e)
  | None =>
      match all_returned (tasks p) with
      | Some rs => Some (Ok rs)
      | None => None
      end
  end.

End Fanout.


(** ** More of the Python string operations *)

Module PyStrMore.



(** The first [n] characters. *)
Fixpoint take (n : nat) (s : string) : string :=
  match n, s with
  | O, _ => EmptyString
  | S _, EmptyString => EmptyString
  | S n', String c s' => String c (take n' s')
  end.

(** [s[:n]], with the bound clamped as for lists. *)
Definition slice_to (n : Z) (s : string) : string :=
  take (if n <? 0 then Z.to_nat (Z.max 0 (PyStr.len s + n))
        else Z.to_nat (Z.min n (PyStr.len s))) s.

End PyStrMore.

(** ** Text helpers ([utils/helpers.py], [observability/logger.py]) *)

(** [truncate_text(text, max_length)] *)
Definition truncate_text (text : string) (max_length : Z) : string :=
  if PyStr.len text <=? max_length then text
  else PyStrMore.slice_to (max_length - 3) text +:+ "...".

(** [DetailedLogger._truncate_for_display], on the string [str(data)]. *)
Definition truncate_for_display (s : string) (max_chars : Z) : string :=
  if max_chars <? PyStr.len s then PyStrMore.slice_to max_chars s +:+ "..."
  else s.

(** The data handed to the audit log: a string, a dict with its items in
    insertion order, a list, or any other object, of which only [str(data)]
    matters. *)
#[warnings="-register-all"]
Inductive LogData :=
| L_str (s : string)
| L_dict (items : list (string * LogData))
| L_list (items : list LogData)
| L_other (str : string).

(** [DetailedLogger._truncate_for_log] *)
Fixpoint truncate_for_log (data : LogData) (max_chars : Z) : LogData :=
  match data with
  | L_str data =>
      L_str (if max_chars <? PyStr.len data
             then PyStrMore.slice_to max_chars data +:+ "..." else data)
  | L_dict data =>
      (* over list(data.items())[:10] *)
      L_dict ((fix first (n : nat) (items : list (string * LogData)) :=
                 match n, items with
                 | S n', (k, v) :: items' =>
                     (k, truncate_for_log v (max_chars / 2)) :: first n' items'
                 | _, _ => []
                 end) 10%nat data)
  | L_list data =>
      (* over data[:10] *)
      L_list ((fix first (n : nat) (items : list LogData) :=
                 match n, items with
                 | S n', item :: items' =>
                     truncate_for_log item (max_chars / 4) :: first n' items'
                 | _, _ => []
                 end) 10%nat data)
  | L_other s =>
      L_str (if max_chars <? PyStr.len s
             then PyStrMore.slice_to max_chars s +:+ "..." else s)
  end.

(** ** The reflection prompt's view of the search memory
       ([prompts/analysis.py]) *)

(** The list [current_depth_searches] of [build_reflection_prompt]: the
    stored searches the prompt shows.  It is empty when [search_memory]
    is. *)
Definition current_depth_searches (state : AgentState) : list SearchMemoryEntry :=
  if PyList.truthy (search_memory state) then
    filter (fun s => sm_depth s = current_depth state) (search_memory state)
  else [].

(** ** The entry point ([main.py]) *)




(** * Vocabulary of the properties *)



(** The latest reflection record says [should_continue == false]. *)
Definition latest_recommends_stop (state : AgentState) : Prop :=
  exists r, last (reflection_memory state) = Some r /\
            r_should_continue r = Some false.

(** The stagnation check the routing function makes. *)
Definition stagnation_fires (cfg : Settings) (state : AgentState) : bool :=
  check_stagnation cfg (reflection_memory state)
                   (Some (stagnation_check_iterations cfg)).







(** Result [i] is the answer of the search collaborator to query [i]. *)
Definition aligned (env : Collaborators) (search_context : string)
    (queries : list string) (results : list WebSearchOutput) : Prop :=
  Forall2 (fun q r => openai_web_search env q search_context = Ok r)
          queries results.

(** The batch [execute_web_search] hands to [parallel_search], and its
    search context. *)
Definition batch_of (cfg : Settings) (state : AgentState) : list string :=
  PyList.slice_to (max_queries_per_depth cfg) (pending_queries state).

Definition context_of (state : AgentState) : string :=
  "Due diligence investigation of " +:+ subject state.

(** The audit entry of a search iteration whose batch raised [e]. *)
Definition failed_iteration (cfg : Settings) (state : AgentState) (e : exn)
    : SearchIterationData :=
  {| goal_depth := current_depth state;
     it_queries := batch_of cfg state;
     model_used := web_search_model cfg;
     new_entities := [];
     sources_found := 0;
     it_sources := None;
     errors := [e] |}.


(** What holds of every pool a schedule can reach from
    [Fanout.start max_concurrent queries]. *)
Record fanout_invariant (search : string -> Result WebSearchOutput)
    (queries : list string) (max_concurrent : Z) (p : Fanout.Pool) : Prop := {
  inv_tasks : length (Fanout.tasks p) = length queries;
  inv_permits : 0 <= Fanout.permits p;
  inv_balance : Fanout.permits p + Fanout.in_flight p = max_concurrent;
  inv_settled : forall i r,
    Fanout.tasks p !! i = Some (Fanout.Settled r) ->
    exists q, queries !! i = Some q /\ search q = r;
  inv_raised : forall i e,
    Fanout.tasks p !! i = Some (Fanout.Settled (Raise e)) ->
    is_Some (Fanout.raised p);
  inv_raised_from : forall e,
    Fanout.raised p = Some e ->
    exists i, Fanout.tasks p !! i = Some (Fanout.Settled (Raise e));
  inv_entered : forall i t,
    Fanout.tasks p !! i = Some t -> t <> Fanout.Waiting -> 1 <= max_concurrent
}.


(** ** Vocabulary of the merge operations *)

Definition graph_nodes (g : EntityGraph) : list GraphNode := default [] (g_nodes g).
Definition graph_edges (g : EntityGraph) : list GraphEdge := default [] (g_edges g).

Definition has_node (nodes : list GraphNode) (id : string) : Prop :=
  exists n, n ∈ nodes /\ n_id n = id.

(** An endpoint of [e] is a node neither of the existing graph nor of the
    new-node set. *)
Definition dangling (existing : EntityGraph) (new_nodes : list GraphNode)
    (e : GraphEdge) : Prop :=
  ~ has_node (graph_nodes existing ++ new_nodes) (e_source e)
  \/ ~ has_node (graph_nodes existing ++ new_nodes) (e_target e).

(** The merged graph kept [e] and has a node for each of its endpoints. *)
Definition kept_with_endpoints (g : EntityGraph) (e : GraphEdge) : Prop :=
  e ∈ graph_edges g /\
  has_node (graph_nodes g) (e_source e) /\ has_node (graph_nodes g) (e_target e).

(** A logged line that names an endpoint of [e].  The only free text of a
    line is the message of a failed attempt. *)
Definition line_mentions (line : LogEvent) (e : GraphEdge) : Prop :=
  match line with
  | LogAttemptFailed _ _ msg =>
      PyStr.occurs_in (e_source e) msg \/ PyStr.occurs_in (e_target e) msg
  | _ => False
  end.

Definition rejection_recorded (log : list LogEvent) (e : GraphEdge) : Prop :=
  exists line, line ∈ log /\ line_mentions line e.

(** The graph the merge works on: an empty dict becomes the empty graph
    and a missing key the empty list. *)
Definition normalized (g : EntityGraph) : EntityGraph :=
  {| g_nodes := Some (graph_nodes g); g_edges := Some (graph_edges g) |}.

(** Asked again with its own answer and the same summary, the entity-merge
    collaborator gives that answer back. *)
Definition answers_stably (env : Collaborators)
    (existing : gmap string EntityRecord) (summary : string) : Prop :=
  forall attempt merged,
    entity_merge_run env existing summary attempt = Ok merged ->
    merged <> ∅ ->
    entity_merge_run env merged summary 0%nat = Ok merged.

(** ** Concrete sessions used as test inputs *)

Module Scenario.

Definition cfg : Settings :=
  {| max_search_depth := 4;
     max_queries_per_depth := 5;
     max_concurrent_searches := 5;
     stagnation_check_iterations := 2;
     openai_max_retries := 3;
     web_search_model := Some "gpt-5" |}.

Fixpoint filler (n : nat) : string :=
  match n with O => "" | S n' => String "x" (filler n') end.

(** A summary with substance: 240 characters, no no-progress phrase. *)
Definition substantive_summary : string := "Key findings " +:+ filler 227.

Definition reflection_continue : Reflection :=
  {| analysis_summary := Some substantive_summary;
     r_should_continue := Some true;
     reasoning := Some "open leads remain";
     query_strategy := Some "follow the money" |}.

Definition reflection_stop : Reflection :=
  {| analysis_summary := Some substantive_summary;
     r_should_continue := Some false;
     reasoning := Some "coverage is sufficient";
     query_strategy := Some "" |}.

Definition reflection_terse : Reflection :=
  {| analysis_summary := Some "No new entities were found.";
     r_should_continue := Some true;
     reasoning := Some "";
     query_strategy := Some "" |}.

Definition found (q : string) : WebSearchOutput :=
  {| ws_query := q;
     search_result := "findings for " +:+ q;
     sources := [{| url := "https://example.org/" +:+ q; title := q |}] |}.

Definition ftx : EntityRecord := {| ent_type := "organization"; ent_mentions := 1 |}.

(** Collaborators that always answer: five queries, a result for every
    search, the reflection [reflect state], one entity. *)
Definition answering (reflect : AgentState -> Reflection) : Collaborators :=
  {| initial_queries_llm := fun _ _ => Ok (Some ["q1"; "q2"; "q3"; "q4"; "q5"]);
     refined_queries_llm := fun _ _ _ _ _ => Ok (Some ["r1"; "r2"]);
     openai_web_search := fun q _ => Ok (found q);
     reflection_llm := fun st => Ok (reflect st);
     entity_merge_run := fun existing _ _ => Ok (<["FTX" := ftx]> existing);
     graph_merge_run := fun g nodes edges _ =>
       Ok {| g_nodes := Some (default [] (g_nodes g) ++ nodes);
             g_edges := Some (default [] (g_edges g) ++ edges) |};
     map_entity_connections := fun _ _ _ =>
       Ok {| new_nodes := [{| n_id := "ftx"; n_name := "FTX"; n_type := "organization" |}];
             new_edges := [];
             patterns_identified := [];
             suspicious_patterns := [];
             key_entities_out := [] |};
     synthesis_run := fun _ => Ok "report" |}.

(** Scenario D: the search for the third query raises a transient error
    on every attempt. *)
Definition third_query_fails : Collaborators :=
  {| initial_queries_llm := initial_queries_llm (answering (fun _ => reflection_continue));
     refined_queries_llm := refined_queries_llm (answering (fun _ => reflection_continue));
     openai_web_search := fun q _ =>
       if String.eqb q "q3" then Raise "APITimeoutError: request timed out"
       else Ok (found q);
     reflection_llm := fun _ => Ok reflection_continue;
     entity_merge_run := entity_merge_run (answering (fun _ => reflection_continue));
     graph_merge_run := graph_merge_run (answering (fun _ => reflection_continue));
     map_entity_connections :=
       map_entity_connections (answering (fun _ => reflection_continue));
     synthesis_run := fun _ => Ok "report" |}.

Definition five_queries : list string := ["q1"; "q2"; "q3"; "q4"; "q5"].

Definition always_continue : Collaborators := answering (fun _ => reflection_continue).
Definition stop_at_once : Collaborators := answering (fun _ => reflection_stop).

Definition request (max_depth : Z) : InitialState :=
  {| i_session_id := "session-1";
     i_subject := "Sam Bankman-Fried";
     i_subject_context := None;
     i_max_depth := max_depth |}.

(** The state right after initialization. *)
Definition fresh (max_depth : Z) : AgentState :=
  match initialize_session (request max_depth) with
  | Ok st => st
  | _ => set_current_depth 0
           {| session_id := ""; subject := ""; subject_context := None;
              current_depth := 0; max_depth := max_depth;
              queries_executed := []; pending_queries := [];
              should_continue := true; termination_reason := None;
              search_count := 0; extraction_count := 0; error_count := 0;
              iteration_count := 0; search_iterations := [];
              search_memory := []; reflection_memory := [];
              discovered_entities := ∅;
              entity_graph := {| g_nodes := None; g_edges := None |};
              red_flags := []; neutral := []; positive := [];
              key_entities := None; final_report := None |}
  end.

(** A fresh session with the five queries pending. *)
Definition queued (max_depth : Z) : AgentState :=
  set_pending_queries five_queries (fresh max_depth).

(** An entity merger that does what its instructions ask: every entity
    found in the summary gets its mention count incremented. *)
Definition count_mention (existing : gmap string EntityRecord) (name : string)
    : gmap string EntityRecord :=
  match existing !! name with
  | Some r =>
      <[name := {| ent_type := ent_type r; ent_mentions := ent_mentions r + 1 |}]>
        existing
  | None => <[name := {| ent_type := "organization"; ent_mentions := 1 |}]> existing
  end.

Definition counting_merger : Collaborators :=
  {| initial_queries_llm := initial_queries_llm always_continue;
     refined_queries_llm := refined_queries_llm always_continue;
     openai_web_search := openai_web_search always_continue;
     reflection_llm := reflection_llm always_continue;
     entity_merge_run := fun existing _ _ => Ok (count_mention existing "FTX");
     graph_merge_run := graph_merge_run always_continue;
     map_entity_connections := map_entity_connections always_continue;
     synthesis_run := synthesis_run always_continue |}.

(** A graph merger that answers with an empty dict. *)
Definition silent_merger : Collaborators :=
  {| initial_queries_llm := initial_queries_llm always_continue;
     refined_queries_llm := refined_queries_llm always_continue;
     openai_web_search := openai_web_search always_continue;
     reflection_llm := reflection_llm always_continue;
     entity_merge_run := entity_merge_run always_continue;
     graph_merge_run := fun _ _ _ _ => Ok {| g_nodes := None; g_edges := None |};
     map_entity_connections := map_entity_connections always_continue;
     synthesis_run := synthesis_run always_continue |}.

(** A graph merger that answers with the existing graph and leaves the
    new edges out. *)
Definition forgetful_merger : Collaborators :=
  {| initial_queries_llm := initial_queries_llm always_continue;
     refined_queries_llm := refined_queries_llm always_continue;
     openai_web_search := openai_web_search always_continue;
     reflection_llm := reflection_llm always_continue;
     entity_merge_run := entity_merge_run always_continue;
     graph_merge_run := fun g nodes _ _ =>
       Ok {| g_nodes := Some (default [] (g_nodes g) ++ nodes);
             g_edges := Some (default [] (g_edges g)) |};
     map_entity_connections := map_entity_connections always_continue;
     synthesis_run := synthesis_run always_continue |}.

Definition sbf_graph : EntityGraph :=
  {| g_nodes := Some [{| n_id := "sam_bankman_fried"; n_name := "Sam Bankman-Fried";
                         n_type := "person" |}];
     g_edges := Some [] |}.

(** An edge to a node that is in neither node set. *)
Definition edge_to_alameda : GraphEdge :=
  {| e_source := "sam_bankman_fried"; e_target := "alameda_research";
     e_relationship := "founded"; e_confidence := 900 |}.

(** Query generation that fails on every call. *)
Definition no_queries : Collaborators :=
  {| initial_queries_llm := fun _ _ => Raise "overloaded_error";
     refined_queries_llm := fun _ _ _ _ _ => Raise "overloaded_error";
     openai_web_search := openai_web_search always_continue;
     reflection_llm := reflection_llm always_continue;
     entity_merge_run := entity_merge_run always_continue;
     graph_merge_run := graph_merge_run always_continue;
     map_entity_connections := map_entity_connections always_continue;
     synthesis_run := synthesis_run always_continue |}.

End Scenario.

(** The edges of the workflow graph between executed nodes. *)
Definition graph_edge (a b : Node) : bool :=
  match a, b with
  | N_generate_queries, N_execute_search
  | N_execute_search, N_analyze_and_reflect
  | N_analyze_and_reflect, N_generate_queries
  | N_analyze_and_reflect, N_map_connections
  | N_map_connections, N_synthesize_report => true
  | _, _ => false
  end.

(** How often node [n] was executed. *)
Definition executions (n : Node) (steps : list Step) : Z :=
  PyList.len (steps_of n steps).

(** A run ended on the finalize path: connection mapping, then synthesis. *)
Definition ends_with_finalize (steps : list Step) : Prop :=
  exists before m s,
    steps = before ++ [m; s] /\
    step_node m = N_map_connections /\
    step_node s = N_synthesize_report.

(** ** Vocabulary of the further properties *)

(** The messages of the failed attempts in a log of the retry wrapper, and
    the delays it slept, in order. *)
Definition failures (log : list LogEvent) : list exn :=
  omap (fun line => match line with
                    | LogAttemptFailed _ _ msg => Some msg
                    | _ => None
                    end) log.

Definition delays (log : list LogEvent) : list Z :=
  omap (fun line => match line with
                    | LogRetryingIn d => Some d
                    | _ => None
                    end) log.

(** The entry the search node stores for the answer [r] to query [q], if
    it stores one. *)
Definition stored_answer (depth : Z) (qr : string * WebSearchOutput)
    : option SearchMemoryEntry :=
  if PyStr.truthy (search_result qr.2) then
    Some {| sm_query := qr.1;
            sm_search_result := search_result qr.2;
            sm_sources_count := PyList.len (sources qr.2);
            sm_depth := depth |}
  else None.

(** State [b] is state [a] after some more work: what identifies the
    session is the same, the logs have only been appended to and the
    counters have not gone down. *)
Record grows (a b : AgentState) : Prop := {
  grows_session : session_id b = session_id a;
  grows_subject : subject b = subject a;
  grows_context : subject_context b = subject_context a;
  grows_max_depth : max_depth b = max_depth a;
  grows_depth : current_depth a <= current_depth b;
  grows_queries : queries_executed a `prefix_of` queries_executed b;
  grows_memory : search_memory a `prefix_of` search_memory b;
  grows_reflections : reflection_memory a `prefix_of` reflection_memory b;
  grows_iterations : search_iterations a `prefix_of` search_iterations b;
  grows_red_flags : red_flags a `prefix_of` red_flags b;
  grows_search_count : search_count a <= search_count b;
  grows_error_count : error_count a <= error_count b;
  grows_iteration_count : iteration_count a <= iteration_count b
}.

(** The counters that mirror a log agree with it. *)
Definition counters_agree (st : AgentState) : Prop :=
  current_depth st = PyList.len (reflection_memory st) /\
  search_count st = PyList.len (queries_executed st).



(** Where the depth stands relative to the cap when node [n] starts: a
    pass of the loop starts below the cap or at depth 0, and the finalize
    path starts at most one pass later. *)
Definition within_cap (cap : Z) (n : Node) (st : AgentState) : Prop :=
  max_depth st = cap /\
  match n with
  | N_map_connections | N_synthesize_report => current_depth st <= Z.max 1 cap
  | _ => current_depth st = 0 \/ current_depth st < cap
  end.

(** Where the stored searches stand relative to the depth when node [n]
    starts: before the analysis of a pass they may be of the current
    depth, before query generation and search they are older. *)
Definition memory_depths (n : Node) (st : AgentState) : Prop :=
  match n with
  | N_generate_queries | N_execute_search =>
      Forall (fun s => sm_depth s < current_depth st) (search_memory st)
  | _ => Forall (fun s => sm_depth s <= current_depth st) (search_memory st)
  end.

(** The number of sources of a list of answers. *)
Definition source_total (results : list WebSearchOutput) : Z :=
  foldr (fun r acc => PyList.len (sources r) + acc) 0 results.

(** The audit entry of a search iteration whose batch returned. *)
Definition answered_iteration (cfg : Settings) (state : AgentState)
    (results : list WebSearchOutput) : SearchIterationData :=
  {| goal_depth := current_depth state;
     it_queries := batch_of cfg state;
     model_used := web_search_model cfg;
     new_entities := [];
     sources_found := source_total results;
     it_sources := Some (flat_map sources results);
     errors := [] |}.

(** Logged data that holds strings only, in dicts and lists of at most ten
    entries at every level. *)
Fixpoint narrow (d : LogData) : bool :=
  match d with
  | L_str _ => true
  | L_dict items =>
      (length items <=? 10)%nat && forallb (fun kv => narrow kv.2) items
  | L_list items => (length items <=? 10)%nat && forallb narrow items
  | L_other _ => false
  end.

(** ** Stages of a session with collaborators that always answer *)

Module Stages.
Import Scenario.

(** No attempt is allowed. *)
Definition no_retries : Settings :=
  {| max_search_depth := 4;
     max_queries_per_depth := 5;
     max_concurrent_searches := 5;
     stagnation_check_iterations := 2;
     openai_max_retries := 0;
     web_search_model := Some "gpt-5" |}.

(** A call that is rate-limited twice and answers at the third attempt,
    and one that is overloaded at every attempt. *)
Definition third_time_lucky (attempt : nat) : Result Z :=
  if (attempt <? 2)%nat then Raise "RateLimitError" else Ok 7.

Definition overloaded (attempt : nat) : Result Z := Raise "overloaded_error".

(** The session after the search of the five queued queries, and after
    the analysis that follows. *)
Definition searched : AgentState :=
  match execute_web_search cfg always_continue (queued 4) with
  | Ok st => st
  | _ => queued 4
  end.

Definition analysed : AgentState :=
  match analyze_and_reflect cfg always_continue searched with
  | Ok st => st
  | _ => searched
  end.

End Stages.
(** * Properties *)

(** ** Strings and slices *)

Module PyStrFacts.
Import PyStr.





End PyStrFacts.

Module PyListFacts.
Import PyList.


(** [l[:n]] and [l[n:]] split the list. *)
Lemma slice_to_from {A} (n : Z) (l : list A) :
  slice_to n l ++ slice_from n l = l.
Proof. apply take_drop. Qed.

Lemma truthy_false {A} (l : list A) : truthy l = false <-> l = [].
Proof. destruct l; simpl; split; congruence. Qed.

End PyListFacts.

(** ** Stagnation detector *)

Section Stagnation.
Context (cfg : Settings).





End Stagnation.

(** ** Settings *)

(** A validated depth cap is at least one, and a run with it fits into
    the recursion limit of [main.py]. *)
Lemma validated_depth_fits_recursion_limit (d : Z) :
  validate_max_depth d = true ->
  1 <= d /\ 3 * d + 3 <= Z.of_nat recursion_limit.
Proof.
  unfold validate_max_depth, recursion_limit.
  intros [H1 H2]%andb_true_iff. apply Z.leb_le in H1, H2. lia.
Qed.

(** Without a depth from the caller, or with the depth 0, the run uses
    the configured cap. *)
Lemma research_max_depth_default (cfg : Settings) :
  research_max_depth cfg None = max_search_depth cfg /\
  research_max_depth cfg (Some 0) = max_search_depth cfg.
Proof. done. Qed.

(** ** Routing policy *)

Section Routing.
Context (cfg : Settings).

Lemma latest_stop_reflect (state : AgentState) :
  match last (reflection_memory state) with
  | Some latest_reflection =>
      negb (default true (r_should_continue latest_reflection))
  | None => false
  end = true <-> latest_recommends_stop state.
Proof.
  unfold latest_recommends_stop.
  destruct (last (reflection_memory state)) as [r|].
  - destruct (r_should_continue r) as [[|]|] eqn:Hr; simpl; split;
      try discriminate; try (intros [r' [[= <-] H]]; congruence).
    intros _. by exists r.
  - split; [discriminate | intros [r [H _]]; discriminate H].
Qed.

(** C2.  The routing decision after the analysis stage checks the
    termination criteria in order and the first that holds decides:
    depth at the cap gives [max_depth_reached]; otherwise a latest
    reflection with [should_continue == false] gives
    [reflection_recommended_stop]; otherwise a positive stagnation check
    gives [stagnation_detected]; otherwise the search continues and the
    state is left as it was.  A stop assigns its reason to
    [termination_reason] and touches nothing else. *)
Theorem should_continue_research_priority (state : AgentState) :
  (max_depth state <= current_depth state ->
     should_continue_research cfg state =
       ("finalize", set_termination_reason (Some "max_depth_reached") state))
  /\ (current_depth state < max_depth state ->
      latest_recommends_stop state ->
      should_continue_research cfg state =
        ("finalize",
         set_termination_reason (Some "reflection_recommended_stop") state))
  /\ (current_depth state < max_depth state ->
      ~ latest_recommends_stop state ->
      stagnation_fires cfg state = true ->
      should_continue_research cfg state =
        ("finalize", set_termination_reason (Some "stagnation_detected") state))
  /\ (current_depth state < max_depth state ->
      ~ latest_recommends_stop state ->
      stagnation_fires cfg state = false ->
      should_continue_research cfg state = ("continue_search", state)).
Proof.
  pose proof (latest_stop_reflect state) as Hstop.
  unfold should_continue_research, stagnation_fires. cbv zeta.
  destruct (Z.leb_spec (max_depth state) (current_depth state)) as [Hcap | Hcap].
  { repeat split; intros; (reflexivity || lia). }
  destruct (match last (reflection_memory state) with
            | Some r => negb (default true (r_should_continue r))
            | None => false end) eqn:Hlatest.
  { assert (latest_recommends_stop state) by by apply Hstop.
    repeat split; intros; (reflexivity || lia || contradiction). }
  assert (~ latest_recommends_stop state) as Hno.
  { intros H. apply Hstop in H. discriminate H. }
  repeat split; intros; try lia; try contradiction.
  - by match goal with H : check_stagnation _ _ _ = _ |- _ => rewrite H end.
  - by match goal with H : check_stagnation _ _ _ = _ |- _ => rewrite H end.
Qed.

(** The routing function answers with one of the two mapped routes and
    changes neither the depth nor its cap. *)
Lemma should_continue_research_frame (state : AgentState) :
  let '(route, state') := should_continue_research cfg state in
  (route = "finalize" \/ route = "continue_search" /\ state' = state)
  /\ current_depth state' = current_depth state
  /\ max_depth state' = max_depth state
  /\ (route = "continue_search" -> current_depth state < max_depth state).
Proof.
  unfold should_continue_research. cbv zeta.
  destruct (Z.leb_spec (max_depth state) (current_depth state)).
  { repeat split; auto; discriminate. }
  repeat (match goal with |- context [if ?b then _ else _] => destruct b end);
    repeat split; auto; discriminate.
Qed.

End Routing.

(** ** Analysis node *)

Section Analysis.
Context (cfg : Settings) (env : Collaborators).

(** C10.  On a state whose [search_memory] is empty the analysis node
    returns the state as it received it: no reflection is appended,
    [discovered_entities] and [should_continue] are untouched and
    [current_depth] is not incremented.  With the depth below its cap
    and no reflection recorded, the routing that follows sends such a
    state back to query generation, still unchanged. *)
Theorem analyze_and_reflect_empty_memory (state : AgentState) :
  search_memory state = [] ->
  analyze_and_reflect cfg env state = Ok state
  /\ (current_depth state < max_depth state ->
      reflection_memory state = [] ->
      follow_edges cfg N_analyze_and_reflect state
        = (Goto N_generate_queries, state)).
Proof.
  intros Hmem. split.
  - unfold analyze_and_reflect. by rewrite Hmem.
  - intros Hdepth Hrefl. unfold follow_edges, should_continue_research.
    cbv zeta. destruct (Z.leb_spec (max_depth state) (current_depth state)); [lia|].
    rewrite Hrefl. reflexivity.
Qed.

End Analysis.

(** ** Frame conditions of the nodes *)

Section NodeFrames.
Context (cfg : Settings) (env : Collaborators).

Ltac case_result :=
  match goal with
  | H : context [match ?r with Ok _ => _ | Raise _ => _ | Hang => _ end] |- _ =>
      destruct r eqn:?; simpl in H
  end.





(** An analysis that is not skipped appends one reflection, takes over
    its decision, and then increments the depth by one. *)
Lemma analyze_and_reflect_increments (st st' : AgentState) :
  search_memory st <> [] ->
  analyze_and_reflect cfg env st = Ok st' ->
  current_depth st' = current_depth st + 1 /\
  exists r, reflection_llm env st = Ok r /\
            reflection_memory st' = reflection_memory st ++ [r] /\
            should_continue st' = default true (r_should_continue r).
Proof.
  unfold analyze_and_reflect, mbind, Result_bind. cbv zeta.
  intros Hmem H. destruct (search_memory st); [done|]. simpl in H.
  repeat case_result; simplify_eq/=. eauto.
Qed.



End NodeFrames.

(** ** Runs of the workflow graph *)

Section Runs.
Context (cfg : Settings) (env : Collaborators).

Lemma run_from_raise limit n st e :
  run_node cfg env n st = Raise e ->
  run_from cfg env (S limit) n st = ([], Failed e).
Proof. intros H. simpl. by rewrite H. Qed.

Lemma run_from_hang limit n st :
  run_node cfg env n st = Hang ->
  run_from cfg env (S limit) n st = ([], NeverReturns).
Proof. intros H. simpl. by rewrite H. Qed.

Lemma run_from_goto limit n st post n' st' :
  run_node cfg env n st = Ok post ->
  follow_edges cfg n post = (Goto n', st') ->
  run_from cfg env (S limit) n st =
    ({| step_node := n; step_pre := st; step_post := post |}
       :: (run_from cfg env limit n' st').1,
     (run_from cfg env limit n' st').2).
Proof.
  intros H1 H2. simpl. rewrite H1, H2.
  by destruct (run_from cfg env limit n' st').
Qed.

Lemma run_from_end limit n st post final :
  run_node cfg env n st = Ok post ->
  follow_edges cfg n post = (End, final) ->
  run_from cfg env (S limit) n st =
    ([{| step_node := n; step_pre := st; step_post := post |}], Completed final).
Proof. intros H1 H2. simpl. by rewrite H1, H2. Qed.

(** The routing never answers with a route the graph does not map. *)
Lemma follow_edges_total n st :
  (exists n' st', follow_edges cfg n st = (Goto n', st')
                  /\ graph_edge n n' = true)
  \/ (n = N_synthesize_report /\ follow_edges cfg n st = (End, st)).
Proof.
  destruct n; simpl; eauto 6.
  pose proof (should_continue_research_frame cfg st) as H.
  destruct (should_continue_research cfg st) as [route st'].
  destruct H as [[-> | [-> _]] _]; simpl; eauto 6.
Qed.

(** The cases of one node execution. *)
Lemma run_from_cases limit n st :
  (exists e, run_node cfg env n st = Raise e /\
             run_from cfg env (S limit) n st = ([], Failed e))
  \/ (run_node cfg env n st = Hang /\
      run_from cfg env (S limit) n st = ([], NeverReturns))
  \/ (exists post n' st',
        run_node cfg env n st = Ok post /\
        follow_edges cfg n post = (Goto n', st') /\
        graph_edge n n' = true /\
        run_from cfg env (S limit) n st =
          ({| step_node := n; step_pre := st; step_post := post |}
             :: (run_from cfg env limit n' st').1,
           (run_from cfg env limit n' st').2))
  \/ (exists post,
        n = N_synthesize_report /\
        run_node cfg env n st = Ok post /\
        run_from cfg env (S limit) n st =
          ([{| step_node := n; step_pre := st; step_post := post |}],
           Completed post)).
Proof.
  destruct (run_node cfg env n st) as [post|e|] eqn:Hrun.
  - destruct (follow_edges_total n post) as [(n' & st' & Hf & He) | [Hn Hf]].
    + right; right; left. exists post, n', st'.
      repeat split; auto. by apply run_from_goto.
    + right; right; right. exists post. repeat split; auto.
      by apply run_from_end.
  - left. exists e. split; [done | by apply run_from_raise].
  - right; left. split; [done | by apply run_from_hang].
Qed.

Lemma run_from_head limit n st s :
  (run_from cfg env limit n st).1 !! 0%nat = Some s -> step_node s = n.
Proof.
  destruct limit as [|limit]; [done|].
  destruct (run_from_cases limit n st)
    as [(e & _ & ->) | [[_ ->] | [(post & n' & st' & _ & _ & _ & ->) | (post & _ & _ & ->)]]];
    simpl; try done; by intros [= <-].
Qed.

(** Consecutive steps of a run follow the edges of the graph, and the
    state a step receives is the one the routing before it produced. *)
Lemma run_from_adjacent limit : forall n st i a b,
  (run_from cfg env limit n st).1 !! i = Some a ->
  (run_from cfg env limit n st).1 !! S i = Some b ->
  follow_edges cfg (step_node a) (step_post a) = (Goto (step_node b), step_pre b).
Proof.
  induction limit as [|limit IH]; intros n st i a b; [done|].
  destruct (run_from_cases limit n st)
    as [(e & _ & ->) | [[_ ->] | [(post & n' & st' & _ & Hf & _ & ->) | (post & _ & _ & ->)]]];
    simpl; try done.
  destruct i as [|i]; simpl.
  - intros [= <-] Hb. simpl. rewrite Hf.
    pose proof (run_from_head _ _ _ _ Hb) as ->.
    destruct limit as [|limit]; [done|].
    revert Hb.
    destruct (run_from_cases limit n' st')
      as [(e & _ & ->) | [[_ ->] | [(post' & n'' & st'' & _ & _ & _ & ->) | (post' & _ & _ & ->)]]];
      simpl; try done; by intros [= <-].
  - apply IH.
Qed.

Lemma run_from_completed_tail limit : forall n st final,
  (run_from cfg env limit n st).2 = Completed final ->
  (n = N_synthesize_report /\ exists s, (run_from cfg env limit n st).1 = [s])
  \/ ends_with_finalize (run_from cfg env limit n st).1.
Proof.
  induction limit as [|limit IH]; intros n st final; [done|].
  destruct (run_from_cases limit n st)
    as [(e & _ & ->) | [[_ ->] | [(post & n' & st' & _ & _ & He & ->) | (post & -> & _ & ->)]]];
    simpl; try done.
  - intros Hc. right. destruct (IH _ _ _ Hc) as [[-> [s Hs]] | (before & m & s & Hs & Hm & Hsy)].
    + rewrite Hs. destruct n; try discriminate He.
      pose proof (run_from_head limit N_synthesize_report st' s) as Hh.
      rewrite Hs in Hh. specialize (Hh eq_refl).
      by exists [], {| step_node := N_map_connections; step_pre := st; step_post := post |}, s.
    + rewrite Hs.
      by exists ({| step_node := n; step_pre := st; step_post := post |} :: before), m, s.
  - intros _. left. eauto.
Qed.

End Runs.

(** ** The finalize path *)

Section Finalize.
Context (cfg : Settings) (env : Collaborators).

Lemma follow_edges_graph_edge n st n' st' :
  follow_edges cfg n st = (Goto n', st') -> graph_edge n n' = true.
Proof.
  intros H. destruct (follow_edges_total cfg n st) as [(m & st'' & Hf & He) | [_ Hf]];
    rewrite Hf in H; by simplify_eq.
Qed.

Lemma run_graph_cases (limit : nat) (init : InitialState) :
  ((run_graph cfg env limit init).1 = [] /\
   forall final, (run_graph cfg env limit init).2 <> Completed final)
  \/ exists limit' st,
       limit = S limit' /\ initialize_session init = Ok st /\
       run_graph cfg env limit init = run_from cfg env limit' N_generate_queries st.
Proof.
  destruct limit as [|limit']; [by left|]. simpl.
  destruct (initialize_session init) as [st|e|]; [right; eauto | by left | by left].
Qed.

(** C6.  In every run of the workflow, whichever criterion stopped the
    loop: a synthesis step is always directly preceded by a
    connection-mapping step; the step that follows an analysis whose
    routing answered "finalize" is the connection mapping; and a run that
    completes ends with connection mapping followed by synthesis. *)
Theorem finalize_maps_connections_before_synthesis
    (limit : nat) (init : InitialState) :
  let run := run_graph cfg env limit init in
  (forall i s, run.1 !! i = Some s -> step_node s = N_synthesize_report ->
     exists j m, i = S j /\ run.1 !! j = Some m /\
                 step_node m = N_map_connections)
  /\ (forall i s s', run.1 !! i = Some s ->
        step_node s = N_analyze_and_reflect ->
        (should_continue_research cfg (step_post s)).1 = "finalize" ->
        run.1 !! S i = Some s' -> step_node s' = N_map_connections)
  /\ (forall final, run.2 = Completed final -> ends_with_finalize run.1).
Proof.
  cbv zeta.
  destruct (run_graph_cases limit init)
    as [[Hnil Hnc] | (limit' & st & -> & Hinit & ->)].
  { rewrite Hnil. repeat split; try done. intros final Hc. by apply Hnc in Hc. }
  split; [|split].
  - intros i s Hi Hs. destruct i as [|j].
    + apply run_from_head in Hi. congruence.
    + destruct (lookup_lt_is_Some_2 (run_from cfg env limit' N_generate_queries st).1 j)
        as [m Hm]; [apply lookup_lt_Some in Hi; lia|].
      exists j, m. repeat split; auto.
      pose proof (run_from_adjacent cfg env _ _ _ _ _ _ Hm Hi) as Hf.
      apply follow_edges_graph_edge in Hf. rewrite Hs in Hf.
      by destruct (step_node m).
  - intros i s s' Hi Hs Hroute Hi'.
    pose proof (run_from_adjacent cfg env _ _ _ _ _ _ Hi Hi') as Hf.
    rewrite Hs in Hf. simpl in Hf.
    destruct (should_continue_research cfg (step_post s)) as [route st'].
    simpl in Hroute. subst route. simpl in Hf. by simplify_eq.
  - intros final Hc.
    by destruct (run_from_completed_tail cfg env _ _ _ _ Hc) as [[? _] | ?].
Qed.

End Finalize.

(** ** Query generation without queries *)

Section NoQueries.
Context (cfg : Settings) (env : Collaborators).

(** The edge out of query generation does not look at the state: with no
    query pending the run still goes to the search node, which returns
    the state as it is; [has_new_queries], which would answer
    "synthesize", is not on any edge of the graph. *)
Lemma empty_pending_goes_to_search (state : AgentState) :
  pending_queries state = [] ->
  follow_edges cfg N_generate_queries state = (Goto N_execute_search, state)
  /\ execute_web_search cfg env state = Ok state
  /\ has_new_queries state
     = ("synthesize", set_termination_reason (Some "no_additional_queries") state).
Proof.
  intros Hp. split; [done|]. split.
  - unfold execute_web_search. by rewrite Hp.
  - unfold has_new_queries. by rewrite Hp.
Qed.

(** A failed query generation leaves no query pending and counts one
    error. *)
Lemma generate_search_queries_failure (state : AgentState) (e : exn) :
  (if current_depth state =? 0
   then generate_initial_queries env (subject state) (subject_context state)
   else generate_refined_queries env (subject state) (reflection_memory state)
          (queries_executed state) (discovered_entities state)
          (current_depth state)) = Raise e ->
  generate_search_queries env state
    = Ok (set_pending_queries [] (set_error_count (error_count state + 1) state)).
Proof.
  intros H. unfold generate_search_queries, try_except, mbind, Result_bind.
  cbv zeta. by rewrite H.
Qed.

End NoQueries.

(** ** The depth cap *)

Section HardCap.
Context (cfg : Settings) (env : Collaborators).



Lemma executions_nonneg n steps : 0 <= executions n steps.
Proof. unfold executions, PyList.len. lia. Qed.


(** After the analysis node the run either finalizes or, with the depth
    still below the cap, goes back to query generation. *)
Lemma follow_edges_analyze post n' st' :
  follow_edges cfg N_analyze_and_reflect post = (Goto n', st') ->
  current_depth st' = current_depth post /\ max_depth st' = max_depth post /\
  (n' = N_map_connections \/
   n' = N_generate_queries /\ current_depth post < max_depth post).
Proof.
  simpl. pose proof (should_continue_research_frame cfg post) as H.
  destruct (should_continue_research cfg post) as [route st''].
  destruct H as ([-> | [-> ->]] & Hd & Hm & Hlt); simpl; intros [= <- <-];
    auto 6.
Qed.



End HardCap.

Section SingleCycle.
Context (cfg : Settings) (env : Collaborators).



End SingleCycle.

Section DepthCap.
Context (cfg : Settings) (env : Collaborators).


End DepthCap.

(** ** Search batches *)

Section SearchBatch.
Context (cfg : Settings) (env : Collaborators).

Lemma gather_ok {A} (tasks : list (Result A)) (rs : list A) :
  gather tasks = Ok rs <-> Forall2 (fun t r => t = Ok r) tasks rs.
Proof.
  revert rs. induction tasks as [|t tasks IH]; intros rs; simpl.
  - split; [intros [= <-]; constructor | by intros ->%Forall2_nil_inv_l].
  - destruct t as [a|e|].
    + destruct (gather tasks) as [rest|e|] eqn:Hg.
      * split.
        -- intros [= <-]. constructor; [done | by apply IH].
        -- intros (r & rs' & [= <-] & Hrest & ->)%Forall2_cons_inv_l.
           apply IH in Hrest. by injection Hrest as ->.
      * split; [done|].
        intros (r & rs' & _ & Hrest & ->)%Forall2_cons_inv_l.
        by apply IH in Hrest.
      * split; [done|].
        intros (r & rs' & _ & Hrest & ->)%Forall2_cons_inv_l.
        by apply IH in Hrest.
    + split; [done | by intros (r & rs' & ? & _)%Forall2_cons_inv_l].
    + split; [by destruct (gather tasks) | by intros (r & rs' & ? & _)%Forall2_cons_inv_l].
Qed.

(** A batch with a task that raises has no result list: [gather] raises
    the exception of one of its tasks. *)
Lemma gather_raise {A} (tasks : list (Result A)) (e : exn) :
  Raise e ∈ tasks -> exists e', gather tasks = Raise e' /\ Raise e' ∈ tasks.
Proof.
  induction tasks as [|t tasks IH]; [by intros ?%elem_of_nil|].
  intros [<- | Hin]%elem_of_cons; simpl.
  - exists e. split; [done | apply list_elem_of_here].
  - destruct (IH Hin) as (e' & Hg & Hin'). rewrite Hg.
    destruct t as [a|e0|].
    + exists e'. split; [done | by apply list_elem_of_further].
    + exists e0. split; [done | apply list_elem_of_here].
    + exists e'. split; [done | by apply list_elem_of_further].
Qed.

Lemma parallel_search_returns (queries : list string) (ctx : string)
    (max_concurrent : Z) (results : list WebSearchOutput) :
  1 <= max_concurrent ->
  parallel_search env queries ctx max_concurrent = Ok results <->
  aligned env ctx queries results.
Proof.
  intros Hc. unfold parallel_search, aligned.
  destruct (Z.ltb_spec max_concurrent 0); [lia|].
  destruct (Z.eqb_spec max_concurrent 0); [lia|]. simpl andb. cbv iota.
  rewrite gather_ok, Forall2_fmap_l. done.
Qed.

Lemma parallel_search_raises (queries : list string) (ctx : string)
    (max_concurrent : Z) (q : string) (e : exn) :
  1 <= max_concurrent ->
  q ∈ queries -> openai_web_search env q ctx = Raise e ->
  exists q' e', q' ∈ queries /\ openai_web_search env q' ctx = Raise e' /\
                parallel_search env queries ctx max_concurrent = Raise e'.
Proof.
  intros Hc Hq He. unfold parallel_search.
  destruct (Z.ltb_spec max_concurrent 0); [lia|].
  destruct (Z.eqb_spec max_concurrent 0); [lia|]. simpl andb. cbv iota.
  destruct (gather_raise (map (fun q => openai_web_search env q ctx) queries) e)
    as (e' & Hg & Hin).
  { rewrite <- He. apply (list_elem_of_fmap_2 (fun q => openai_web_search env q ctx)), Hq. }
  apply list_elem_of_fmap in Hin as (q' & Hq' & Hin).
  exists q', e'. by repeat split.
Qed.

(** C1.  When every search of a batch returns, the caller
    receives one result per query, result [i] being the answer to query
    [i].  When a search raises, [parallel_search] raises as a whole and
    yields no result list; [execute_web_search] catches the exception at
    the batch boundary: it returns normally, with [error_count]
    incremented by one, the message recorded in the [errors] of the
    iteration's audit entry, and nothing else changed, so that none of
    the batch's results is stored; the run proceeds to the analysis
    node. *)
Theorem search_batch_outcomes (state : AgentState) :
  pending_queries state <> [] ->
  (forall results,
     aligned env (context_of state) (batch_of cfg state) results ->
     parallel_search env (batch_of cfg state) (context_of state)
                     state_max_concurrent_searches = Ok results
     /\ length results = length (batch_of cfg state)
     /\ exists state',
          execute_web_search cfg env state = Ok state' /\
          queries_executed state' = queries_executed state ++ batch_of cfg state /\
          search_count state' = search_count state + PyList.len (batch_of cfg state) /\
          error_count state' = error_count state /\
          map errors (search_iterations state')
            = map errors (search_iterations state) ++ [[]])
  /\ (forall q e,
        q ∈ batch_of cfg state ->
        openai_web_search env q (context_of state) = Raise e ->
        exists q' e',
          q' ∈ batch_of cfg state /\
          openai_web_search env q' (context_of state) = Raise e' /\
          parallel_search env (batch_of cfg state) (context_of state)
                          state_max_concurrent_searches = Raise e' /\
          let state' :=
            set_search_iterations
              (search_iterations state ++ [failed_iteration cfg state e'])
              (set_error_count (error_count state + 1) state) in
          execute_web_search cfg env state = Ok state' /\
          follow_edges cfg N_execute_search state'
            = (Goto N_analyze_and_reflect, state')).
Proof.
  intros Hpending. split.
  - intros results Hal.
    assert (Hp : parallel_search env (batch_of cfg state) (context_of state)
                   state_max_concurrent_searches = Ok results)
      by by apply parallel_search_returns.
    assert (Hlen : length results = length (batch_of cfg state))
      by (symmetry; by eapply Forall2_length).
    split; [done|]. split; [done|].
    unfold execute_web_search. cbv zeta.
    destruct (pending_queries state) as [|q0 qs] eqn:Hpq; [done|].
    simpl PyList.truthy. simpl negb. cbv iota.
    fold (context_of state). rewrite <- Hpq. fold (batch_of cfg state).
    rewrite Hp. eexists. split; [reflexivity|]. simpl.
    repeat split; try done.
    + unfold PyList.len. by rewrite Hlen.
    + by rewrite map_app.
  - intros q e Hq He.
    destruct (parallel_search_raises (batch_of cfg state) (context_of state)
                state_max_concurrent_searches q e) as (q' & e' & Hq' & He' & Hp);
      [done | done | done |].
    exists q', e'. repeat split; try done.
    unfold execute_web_search. cbv zeta.
    destruct (pending_queries state) as [|q0 qs] eqn:Hpq; [done|].
    simpl PyList.truthy. simpl negb. cbv iota.
    fold (context_of state). rewrite <- Hpq. fold (batch_of cfg state).
    rewrite Hp. reflexivity.
Qed.

End SearchBatch.

(** ** Bounded fan-out *)

Module FanoutFacts.
Import Fanout.

Section Machine.
Context (search : string -> Result WebSearchOutput) (queries : list string).













End Machine.
End FanoutFacts.

Section BoundedFanout.
Context (env : Collaborators).
Import Fanout.


(** When [gather] raises, the exception is that of one of the searches,
    and [parallel_search] raises as well. *)
Lemma gathered_raise (queries : list string) (ctx : string)
    (max_concurrent : Z) (p : Pool) (e : exn) :
  fanout_invariant (fun q => openai_web_search env q ctx) queries max_concurrent p ->
  gathered p = Some (Raise e) ->
  (exists q, q ∈ queries /\ openai_web_search env q ctx = Raise e)
  /\ exists e', parallel_search env queries ctx max_concurrent = Raise e'.
Proof.
  intros [Ht Hp Hb Hs Hr Hrf Ha]. unfold gathered.
  destruct (raised p) as [e0|] eqn:Hraised.
  2:{ by destruct (all_returned (tasks p)). }
  intros [= ->]. destruct (Hrf e eq_refl) as [i Hi].
  destruct (Hs i _ Hi) as (q & Hq & Hsq).
  assert (q ∈ queries) as Hin by by eapply list_elem_of_lookup_2.
  split; [eauto|].
  destruct (parallel_search_raises env queries ctx max_concurrent q e)
    as (q' & e' & _ & _ & Hps); eauto.
Qed.


End BoundedFanout.

(** ** Retry wrapper *)

Section Retry.
Context {A : Type} (agent_func : nat -> Result A) (max_retries : Z).

(** A result of the wrapper is the result of one of the attempts. *)
Lemma retry_loop_ok (remaining : nat) : forall attempt delay last r log,
  retry_loop agent_func max_retries remaining attempt delay last = (Ok r, log) ->
  exists k, agent_func k = Ok r.
Proof.
  induction remaining as [|remaining IH]; intros attempt delay last r log; simpl.
  - done.
  - destruct (agent_func attempt) as [a|e|] eqn:Hf.
    + intros [= <- _]. eauto.
    + destruct (Z.of_nat attempt <? max_retries - 1).
      * destruct (retry_loop _ _ remaining _ _ _) as [r' log'] eqn:Hrec.
        intros [= -> _]. eauto.
      * destruct (retry_loop _ _ remaining _ _ _) as [r' log'] eqn:Hrec.
        intros [= -> _]. eauto.
    + done.
Qed.

(** The only free text in the log is the message of an attempt that
    raised. *)
Lemma retry_loop_log (remaining : nat) : forall attempt delay last r log,
  retry_loop agent_func max_retries remaining attempt delay last = (r, log) ->
  Forall (fun line => match line with
                      | LogAttemptFailed _ _ msg => exists k, agent_func k = Raise msg
                      | _ => True
                      end) log.
Proof.
  induction remaining as [|remaining IH]; intros attempt delay last r log; simpl.
  - intros [= _ <-]. by repeat constructor.
  - destruct (agent_func attempt) as [a|e|] eqn:Hf.
    + intros [= _ <-]. destruct (0 <? Z.of_nat attempt); by repeat constructor.
    + destruct (Z.of_nat attempt <? max_retries - 1).
      * destruct (retry_loop _ _ remaining _ _ _) as [r' log'] eqn:Hrec.
        intros [= _ <-]. repeat constructor; eauto.
      * destruct (retry_loop _ _ remaining _ _ _) as [r' log'] eqn:Hrec.
        intros [= _ <-]. repeat constructor; eauto.
    + intros [= _ <-]. constructor.
Qed.

Lemma retry_agent_execution_ok r log :
  retry_agent_execution agent_func max_retries = (Ok r, log) ->
  1 <= max_retries /\ exists k, agent_func k = Ok r.
Proof.
  unfold retry_agent_execution. intros H. split.
  - destruct (Z.to_nat max_retries) eqn:Hn; [done | lia].
  - by eapply retry_loop_ok.
Qed.

Lemma retry_agent_execution_first r :
  1 <= max_retries -> agent_func 0%nat = Ok r ->
  retry_agent_execution agent_func max_retries = (Ok r, []).
Proof.
  intros Hm Hf. unfold retry_agent_execution.
  destruct (Z.to_nat max_retries) eqn:Hn; [lia|]. simpl. by rewrite Hf.
Qed.

End Retry.

(** ** Entity merge *)

Section EntityMerge.
Context (cfg : Settings) (env : Collaborators).

(** C9.  Applying the entity merge a second time to its own
    result, with the same analysis summary, gives that result again
    whenever the merge collaborator answers stably, that is, returns its
    own answer unchanged when asked again with it.  The code adds no
    deduplication or counting of its own: with an empty summary it
    returns the existing mapping, otherwise the collaborator's mapping
    (the existing one when that is empty). *)
Theorem entity_merge_twice (existing once : gmap string EntityRecord)
    (summary : string) :
  (merge_entities_with_llm cfg env existing summary).1 = Ok once ->
  answers_stably env existing summary ->
  (merge_entities_with_llm cfg env once summary).1 = Ok once.
Proof.
  unfold merge_entities_with_llm.
  destruct (PyStr.truthy summary); simpl negb; cbv iota.
  2:{ simpl. by intros [= ->]. }
  destruct (retry_agent_execution (entity_merge_run env existing summary)
              (openai_max_retries cfg)) as [result log] eqn:Hretry.
  destruct result as [merged|e|]; simpl; [|done|done].
  intros [= Honce] Hstable.
  destruct (entities_truthy merged) eqn:Htruthy.
  - subst once. apply retry_agent_execution_ok in Hretry as [Hmax [k Hk]].
    assert (merged <> ∅) as Hne.
    { unfold entities_truthy in Htruthy. by apply bool_decide_eq_true in Htruthy. }
    rewrite (retry_agent_execution_first _ _ merged Hmax (Hstable k merged Hk Hne)).
    simpl. by rewrite Htruthy.
  - subst once. rewrite Hretry. simpl. by rewrite Htruthy.
Qed.

End EntityMerge.

(** ** Graph merge *)

Section GraphMerge.
Context (cfg : Settings) (env : Collaborators).

(** C8.  For a graph merge with new nodes or edges, among them
    an edge with an endpoint in neither node set: when the merge
    returns a graph, that graph is the one the merge collaborator
    answered with on some attempt, or the existing graph when that
    answer was an empty dict; the lines it logs are those of the retry
    wrapper, whose only free text is the message of a failed attempt.
    So the edge is kept with placeholder endpoints exactly when the
    collaborator's graph has them, and when the collaborator answers
    with an empty dict the edge is dropped. *)
Theorem graph_merge_defers_to_collaborator (existing : EntityGraph)
    (nodes : list GraphNode) (edges : list GraphEdge) (e : GraphEdge) :
  e ∈ edges ->
  dangling existing nodes e ->
  let out := merge_graph_with_llm cfg env existing nodes edges in
  (forall g, out.1 = Ok g ->
     exists attempt merged,
       graph_merge_run env (normalized existing) nodes edges attempt = Ok merged /\
       g = (if graph_truthy merged then merged else normalized existing) /\
       (graph_truthy merged = true ->
          (kept_with_endpoints g e <-> kept_with_endpoints merged e)) /\
       (graph_truthy merged = false -> ~ kept_with_endpoints g e))
  /\ Forall (fun line =>
               match line with
               | LogAttemptFailed _ _ msg =>
                   exists attempt,
                     graph_merge_run env (normalized existing) nodes edges attempt
                       = Raise msg
               | _ => True
               end) out.2.
Proof.
  intros He Hdangling. cbv zeta. unfold merge_graph_with_llm.
  assert (Hnorm :
    {| g_nodes := Some (default [] (g_nodes
          (if negb (graph_truthy existing)
           then {| g_nodes := Some []; g_edges := Some [] |} else existing)));
       g_edges := Some (default [] (g_edges
          (if negb (graph_truthy existing)
           then {| g_nodes := Some []; g_edges := Some [] |} else existing))) |}
    = normalized existing).
  { by destruct existing as [[?|] [?|]]. }
  rewrite Hnorm.
  assert (PyList.truthy edges = true) as ->.
  { destruct edges; [by apply elem_of_nil in He | done]. }
  rewrite andb_false_r.
  destruct (retry_agent_execution
              (graph_merge_run env (normalized existing) nodes edges)
              (openai_max_retries cfg)) as [result log] eqn:Hretry.
  simpl. split.
  - intros g Hg. destruct result as [merged|?|]; simpl in Hg; [|done|done].
    injection Hg as <-.
    apply retry_agent_execution_ok in Hretry as [_ [k Hk]].
    exists k, merged. split; [done|]. split; [done|]. split.
    + by intros ->.
    + intros ->. intros (_ & Hs & Ht).
      unfold normalized, graph_nodes in Hs, Ht. simpl in Hs, Ht.
      destruct Hdangling as [Hd | Hd]; apply Hd.
      * destruct Hs as (n & Hn & Hid). exists n. split; [|done].
        apply elem_of_app. by left.
      * destruct Ht as (n & Hn & Hid). exists n. split; [|done].
        apply elem_of_app. by left.
  - by eapply retry_loop_log.
Qed.

End GraphMerge.

(** * Further properties of the code *)

(** ** Retry wrapper: the course of the attempts *)

Section RetryCourse.
Context {A : Type} (agent_func : nat -> Result A) (max_retries : Z).

Lemma pow2_seq (delay : Z) (k : nat) :
  map (fun j => delay * 2 ^ Z.of_nat j) (seq 0 (S k)) =
  delay :: map (fun j => delay * 2 * 2 ^ Z.of_nat j) (seq 0 k).
Proof.
  simpl. rewrite Z.mul_1_r. f_equal. rewrite <- seq_shift, map_map.
  apply map_ext. intros j. rewrite Nat2Z.inj_succ, Z.pow_succ_r by lia. lia.
Qed.

(** One failed attempt: the line about it, a sleep unless it was the last
    attempt of the range, and the rest of the loop. *)
Lemma retry_loop_raise (remaining attempt : nat) (delay : Z)
    (seen : option exn) (e : exn) :
  agent_func attempt = Raise e ->
  retry_loop agent_func max_retries (S remaining) attempt delay seen =
    let sleeps := Z.of_nat attempt <? max_retries - 1 in
    let rest := retry_loop agent_func max_retries remaining (S attempt)
                  (if sleeps then delay * 2 else delay) (Some e) in
    (rest.1,
     LogAttemptFailed (Z.of_nat attempt + 1) max_retries e
       :: (if sleeps then [LogRetryingIn delay] else []) ++ rest.2).
Proof.
  intros H. cbv zeta. simpl. rewrite H.
  destruct (Z.of_nat attempt <? max_retries - 1);
    by destruct (retry_loop agent_func max_retries remaining _ _ _).
Qed.

Lemma retry_loop_first_success (errs : nat -> exn) (r : A) (k : nat) :
  forall remaining attempt delay seen,
    (k < remaining)%nat ->
    Z.of_nat (attempt + k) < max_retries ->
    (forall j, (attempt <= j < attempt + k)%nat -> agent_func j = Raise (errs j)) ->
    agent_func (attempt + k)%nat = Ok r ->
    let out := retry_loop agent_func max_retries remaining attempt delay seen in
    out.1 = Ok r /\
    failures out.2 = map errs (seq attempt k) /\
    delays out.2 = map (fun j => delay * 2 ^ Z.of_nat j) (seq 0 k).
Proof.
  induction k as [|k IH]; intros remaining attempt delay seen Hrem Hmax Hfail Hok;
    (destruct remaining as [|remaining]; [lia|]); cbv zeta.
  - simpl retry_loop. rewrite Nat.add_0_r in Hok. rewrite Hok. simpl.
    by destruct (0 <? Z.of_nat attempt).
  - rewrite (retry_loop_raise _ _ _ _ (errs attempt)) by (apply Hfail; lia).
    cbv zeta. destruct (Z.ltb_spec (Z.of_nat attempt) (max_retries - 1)); [|lia].
    destruct (IH remaining (S attempt) (delay * 2) (Some (errs attempt)))
      as (Hres & Hf & Hd).
    + lia.
    + lia.
    + intros j Hj. apply Hfail. lia.
    + by replace (S attempt + k)%nat with (attempt + S k)%nat by lia.
    + rewrite pow2_seq. cbn [fst snd]. unfold failures, delays in *.
      simpl. split; [done|]. split; f_equal; [exact Hf | exact Hd].
Qed.

Lemma retry_loop_exhausted (errs : nat -> exn) (remaining : nat) :
  forall attempt delay seen,
    Z.of_nat (attempt + S remaining) = max_retries ->
    (forall j, (attempt <= j < attempt + S remaining)%nat ->
               agent_func j = Raise (errs j)) ->
    let out := retry_loop agent_func max_retries (S remaining) attempt delay seen in
    out.1 = Raise (errs (attempt + remaining)%nat) /\
    failures out.2 = map errs (seq attempt (S remaining)) /\
    delays out.2 = map (fun j => delay * 2 ^ Z.of_nat j) (seq 0 remaining) /\
    last out.2 = Some (LogRetriesExhausted max_retries).
Proof.
  induction remaining as [|remaining IH]; intros attempt delay seen Hmax Hfail;
    cbv zeta; rewrite (retry_loop_raise _ _ _ _ (errs attempt)) by (apply Hfail; lia);
    cbv zeta.
  - destruct (Z.ltb_spec (Z.of_nat attempt) (max_retries - 1)); [lia|].
    simpl. by rewrite Nat.add_0_r.
  - destruct (Z.ltb_spec (Z.of_nat attempt) (max_retries - 1)); [|lia].
    destruct (IH (S attempt) (delay * 2) (Some (errs attempt)))
      as (Hres & Hf & Hd & Hl).
    + lia.
    + intros j Hj. apply Hfail. lia.
    + cbn [fst snd]. split; [|split; [|split]].
      * rewrite Hres. f_equal. f_equal. lia.
      * unfold failures in *. simpl. f_equal. exact Hf.
      * rewrite pow2_seq. unfold delays in *. simpl. f_equal. exact Hd.
      * cbn [app]. rewrite !last_cons, Hl. done.
Qed.

End RetryCourse.

Section RetryOutcomes.
Context {A : Type} (agent_func : nat -> Result A) (max_retries : Z).

(** X1.  When the attempts before attempt [k] raise and attempt [k], still
    within [max_retries], returns, the wrapper returns that result; it has
    logged the [k] failures in order and slept [k] times, for 1, 2, 4, ...
    seconds. *)
Theorem retry_returns_first_success (errs : nat -> exn) (r : A) (k : nat) :
  Z.of_nat k < max_retries ->
  (forall j, (j < k)%nat -> agent_func j = Raise (errs j)) ->
  agent_func k = Ok r ->
  let out := retry_agent_execution agent_func max_retries in
  out.1 = Ok r /\
  failures out.2 = map errs (seq 0 k) /\
  delays out.2 = map (fun j => 2 ^ Z.of_nat j) (seq 0 k).
Proof.
  intros Hk Hfail Hok. cbv zeta. unfold retry_agent_execution.
  destruct (retry_loop_first_success agent_func max_retries errs r k
              (Z.to_nat max_retries) 0 1 None) as (H1 & H2 & H3);
    try done; try lia.
  - intros j Hj. apply Hfail. lia.
  - repeat split; try done. rewrite H3. apply map_ext. intros j. lia.
Qed.

(** X2.  When all [max_retries >= 1] attempts raise, the wrapper raises the
    exception of the last attempt; it has logged every failure, slept
    between the attempts but not after the last one, and its last line
    says that the retries are exhausted. *)
Theorem retry_raises_last_exception (errs : nat -> exn) :
  1 <= max_retries ->
  (forall j, Z.of_nat j < max_retries -> agent_func j = Raise (errs j)) ->
  let out := retry_agent_execution agent_func max_retries in
  out.1 = Raise (errs (Z.to_nat max_retries - 1)%nat) /\
  failures out.2 = map errs (seq 0 (Z.to_nat max_retries)) /\
  delays out.2 = map (fun j => 2 ^ Z.of_nat j) (seq 0 (Z.to_nat max_retries - 1)) /\
  last out.2 = Some (LogRetriesExhausted max_retries).
Proof.
  intros Hmax Hfail. cbv zeta. unfold retry_agent_execution.
  destruct (Z.to_nat max_retries) as [|n] eqn:Hn; [lia|].
  destruct (retry_loop_exhausted agent_func max_retries errs n 0 1 None)
    as (H1 & H2 & H3 & H4).
  - lia.
  - intros j Hj. apply Hfail. lia.
  - replace (S n - 1)%nat with n by lia. repeat split; try done.
    rewrite H3. apply map_ext. intros j. lia.
Qed.

(** With [max_retries <= 0] the loop body never runs. *)
Lemma retry_without_attempts :
  max_retries <= 0 ->
  retry_agent_execution agent_func max_retries =
    (Raise "TypeError: exceptions must derive from BaseException",
     [LogRetriesExhausted max_retries]).
Proof.
  intros H. unfold retry_agent_execution.
  by replace (Z.to_nat max_retries) with 0%nat by lia.
Qed.

End RetryOutcomes.

(** ** Merge operations: what they return *)

Section MergeOutcomes.
Context (cfg : Settings) (env : Collaborators).

Lemma merge_entities_nonempty (existing merged : gmap string EntityRecord)
    (summary : string) :
  existing <> ∅ ->
  (merge_entities_with_llm cfg env existing summary).1 = Ok merged ->
  merged <> ∅.
Proof.
  intros Hne. unfold merge_entities_with_llm.
  destruct (negb (PyStr.truthy summary)); [simpl; by intros [= <-]|].
  destruct (retry_agent_execution _ _) as [[answer|?|] log]; simpl; try done.
  intros [= <-]. unfold entities_truthy. by case_bool_decide.
Qed.

Lemma merge_graph_truthy (existing g : EntityGraph)
    (nodes : list GraphNode) (edges : list GraphEdge) :
  (merge_graph_with_llm cfg env existing nodes edges).1 = Ok g ->
  graph_truthy g = true.
Proof.
  unfold merge_graph_with_llm.
  destruct (negb (PyList.truthy nodes) && negb (PyList.truthy edges)).
  - simpl. intros [= <-]. by destruct existing as [[?|] [?|]].
  - destruct (retry_agent_execution _ _) as [[answer|?|] log]; simpl; try done.
    intros [= <-]. by destruct (graph_truthy answer) eqn:Hanswer.
Qed.

(** X3.  With [max_retries] configured as 0 or less, no request is made:
    an entity merge with a non-empty summary, and a graph merge with
    something to merge, raise a [TypeError] whatever the collaborator
    would have answered. *)
Theorem merges_fail_without_attempts :
  openai_max_retries cfg <= 0 ->
  (forall existing summary,
     summary <> "" ->
     (merge_entities_with_llm cfg env existing summary).1 =
       Raise "TypeError: exceptions must derive from BaseException")
  /\ (forall existing nodes edges,
        nodes <> [] \/ edges <> [] ->
        (merge_graph_with_llm cfg env existing nodes edges).1 =
          Raise "TypeError: exceptions must derive from BaseException").
Proof.
  intros Hmax. split.
  - intros existing summary Hs. unfold merge_entities_with_llm.
    destruct summary; [done|]. simpl PyStr.truthy. simpl negb. cbv iota.
    by rewrite retry_without_attempts.
  - intros existing nodes edges Hne. unfold merge_graph_with_llm.
    assert (negb (PyList.truthy nodes) && negb (PyList.truthy edges) = false) as ->.
    { destruct Hne; [destruct nodes | destruct edges]; try done.
      by rewrite andb_false_r. }
    by rewrite retry_without_attempts.
Qed.

(** X4.  The entity merge never replaces a non-empty mapping by an empty
    one: what it returns is the existing mapping or a non-empty answer of
    the collaborator; with an empty summary it returns the existing
    mapping and logs nothing. *)
Theorem entity_merge_keeps_entities (existing merged : gmap string EntityRecord)
    (summary : string) :
  (merge_entities_with_llm cfg env existing summary).1 = Ok merged ->
  (merged = existing \/
   merged <> ∅ /\
   exists attempt, entity_merge_run env existing summary attempt = Ok merged)
  /\ (existing <> ∅ -> merged <> ∅)
  /\ (summary = "" ->
      merge_entities_with_llm cfg env existing summary = (Ok existing, [])).
Proof.
  unfold merge_entities_with_llm.
  destruct summary as [|c summary]; simpl PyStr.truthy; simpl negb; cbv iota.
  { simpl. intros [= <-]. auto. }
  destruct (retry_agent_execution _ _) as [[answer|?|] log] eqn:Hretry;
    simpl; try done.
  intros [= <-]. unfold entities_truthy.
  case_bool_decide as Hanswer.
  - apply retry_agent_execution_ok in Hretry as [_ [k Hk]].
    split; [right; eauto|]. split; done.
  - split; [by left|]. split; done.
Qed.

(** X5.  The graph merge never returns an empty dict: its result is the
    existing graph, the empty graph in place of an empty dict, or a
    non-empty answer of the collaborator.  With nothing to merge it
    returns without a request and cannot fail. *)
Theorem graph_merge_returns_a_graph (existing : EntityGraph)
    (nodes : list GraphNode) (edges : list GraphEdge) :
  (forall g,
     (merge_graph_with_llm cfg env existing nodes edges).1 = Ok g ->
     graph_truthy g = true /\
     (g = existing \/ g = normalized existing \/
      exists attempt,
        graph_merge_run env (normalized existing) nodes edges attempt = Ok g))
  /\ (nodes = [] -> edges = [] ->
      merge_graph_with_llm cfg env existing nodes edges =
        (Ok (if graph_truthy existing then existing else normalized existing), [])).
Proof.
  split.
  - intros g. unfold merge_graph_with_llm.
    assert (Hnorm :
      {| g_nodes := Some (default [] (g_nodes
            (if negb (graph_truthy existing)
             then {| g_nodes := Some []; g_edges := Some [] |} else existing)));
         g_edges := Some (default [] (g_edges
            (if negb (graph_truthy existing)
             then {| g_nodes := Some []; g_edges := Some [] |} else existing))) |}
      = normalized existing).
    { by destruct existing as [[?|] [?|]]. }
    rewrite Hnorm.
    destruct (negb (PyList.truthy nodes) && negb (PyList.truthy edges)).
    + simpl. intros [= <-]. destruct existing as [[?|] [?|]]; simpl; auto.
    + destruct (retry_agent_execution _ _) as [[answer|?|] log] eqn:Hretry;
        simpl; try done.
      intros [= <-]. destruct (graph_truthy answer) eqn:Hanswer.
      * apply retry_agent_execution_ok in Hretry as [_ [k Hk]]. eauto 6.
      * auto.
  - intros -> ->. unfold merge_graph_with_llm. simpl.
    by destruct existing as [[?|] [?|]].
Qed.

End MergeOutcomes.

(** ** Search node: what a batch leaves in the state *)

Section SearchNode.
Context (cfg : Settings) (env : Collaborators).

(** The loop over the answers, as list comprehensions. *)
Lemma tally_fold (depth : Z) (pairs : list (string * WebSearchOutput)) :
  forall acc,
    let tally := fold_left (tally_result depth) pairs acc in
    total_sources tally = total_sources acc + source_total pairs.*2 /\
    iteration_search_memories tally =
      iteration_search_memories acc ++ omap (stored_answer depth) pairs /\
    all_sources tally = all_sources acc ++ flat_map sources pairs.*2.
Proof.
  induction pairs as [|[q r] pairs IH]; intros acc; cbv zeta.
  - simpl. rewrite !app_nil_r. repeat split; lia.
  - cbn [fold_left]. destruct (IH (tally_result depth acc (q, r))) as (H1 & H2 & H3).
    rewrite H1, H2, H3. unfold tally_result, stored_answer. cbn [fst snd].
    cbn [total_sources iteration_search_memories all_sources].
    assert (Hcount : (if PyList.truthy (sources r) then PyList.len (sources r) else 0)
                     = PyList.len (sources r)) by by destruct (sources r).
    rewrite Hcount. simpl. repeat split.
    + by rewrite <- Z.add_assoc.
    + destruct (PyStr.truthy (search_result r)); simpl; by rewrite <- ?app_assoc.
    + destruct (sources r); simpl; by rewrite <- ?app_assoc, ?app_nil_r.
Qed.

Lemma zip_snd_same_length {X Y} (l : list X) (k : list Y) :
  length l = length k -> (zip l k).*2 = k.
Proof. intros H. by apply snd_zip; lia. Qed.

(** The three ways the search node returns. *)
Lemma execute_web_search_cases (st st' : AgentState) :
  execute_web_search cfg env st = Ok st' ->
  (pending_queries st = [] /\ st' = st)
  \/ (pending_queries st <> [] /\
      exists results,
        parallel_search env (batch_of cfg st) (context_of st)
                        state_max_concurrent_searches = Ok results /\
        length results = length (batch_of cfg st) /\
        st' =
          set_search_iterations
            (search_iterations st ++ [answered_iteration cfg st results])
            (set_search_count (search_count st + PyList.len (batch_of cfg st))
               (set_pending_queries
                  (PyList.slice_from (max_queries_per_depth cfg) (pending_queries st))
                  (set_queries_executed (queries_executed st ++ batch_of cfg st)
                     (set_search_memory
                        (search_memory st ++
                           omap (stored_answer (current_depth st))
                                (zip (batch_of cfg st) results))
                        st)))))
  \/ (pending_queries st <> [] /\
      exists e,
        parallel_search env (batch_of cfg st) (context_of st)
                        state_max_concurrent_searches = Raise e /\
        st' =
          set_search_iterations
            (search_iterations st ++ [failed_iteration cfg st e])
            (set_error_count (error_count st + 1) st)).
Proof.
  unfold execute_web_search. cbv zeta.
  destruct (pending_queries st) as [|q0 qs] eqn:Hpq.
  { simpl. intros [= <-]. by left. }
  simpl PyList.truthy. simpl negb. cbv iota.
  fold (context_of st). rewrite <- Hpq. fold (batch_of cfg st).
  destruct (parallel_search env (batch_of cfg st) (context_of st)
              state_max_concurrent_searches) as [results|e|] eqn:Hp.
  - simpl. intros [= <-]. right; left. split; [by rewrite Hpq|].
    exists results.
    assert (Hlen : length results = length (batch_of cfg st)).
    { apply parallel_search_returns in Hp; [|done].
      symmetry. by eapply Forall2_length. }
    split; [done|]. split; [done|].
    unfold tally_results.
    destruct (tally_fold (current_depth st) (zip (batch_of cfg st) results)
                {| total_sources := 0; iteration_search_memories := [];
                   all_sources := [] |}) as (H1 & H2 & H3).
    cbv zeta in H1, H2, H3. simpl in H1, H2, H3.
    rewrite zip_snd_same_length in H1, H3 by done.
    rewrite H1, H2, H3. unfold answered_iteration, PyList.len.
    by rewrite Hlen.
  - simpl. intros [= <-]. right; right. split; [by rewrite Hpq|]. by exists e.
  - done.
Qed.

Lemma omap_length_le {X Y} (f : X -> option Y) (l : list X) :
  (length (omap f l) <= length l)%nat.
Proof.
  induction l as [|x l IH]; [done|]. simpl.
  change (list_omap X Y f l) with (omap f l).
  destruct (f x); simpl; lia.
Qed.



(** The search node returns unless the fan-out never returns. *)
Lemma execute_web_search_ok_or_hang (st : AgentState) :
  (exists st', execute_web_search cfg env st = Ok st')
  \/ (execute_web_search cfg env st = Hang /\
      parallel_search env (batch_of cfg st) (context_of st)
                      state_max_concurrent_searches = Hang).
Proof.
  unfold execute_web_search. cbv zeta.
  destruct (pending_queries st) as [|q0 qs] eqn:Hpq; [left; eauto|].
  simpl PyList.truthy. simpl negb. cbv iota.
  fold (context_of st). rewrite <- Hpq. fold (batch_of cfg st).
  destruct (parallel_search env (batch_of cfg st) (context_of st)
              state_max_concurrent_searches); simpl; eauto.
Qed.


(** X7.  When the batch returns, the search node stores exactly the
    answers that have a result text, in query order, each under its own
    query and tagged with the current depth; the audit entry it appends
    counts the sources of all answers, those without a result text
    included, and has no error. *)
Theorem execute_web_search_stores_answers (st : AgentState)
    (results : list WebSearchOutput) :
  pending_queries st <> [] ->
  parallel_search env (batch_of cfg st) (context_of st)
                  state_max_concurrent_searches = Ok results ->
  exists st' it,
    execute_web_search cfg env st = Ok st' /\
    search_memory st' =
      search_memory st ++
        omap (stored_answer (current_depth st)) (zip (batch_of cfg st) results) /\
    search_iterations st' = search_iterations st ++ [it] /\
    it_queries it = batch_of cfg st /\
    sources_found it = source_total results /\
    it_sources it = Some (flat_map sources results) /\
    errors it = [].
Proof.
  intros Hpending Hp.
  destruct (execute_web_search_ok_or_hang st) as [[st' Hok] | [_ Hh]];
    [|congruence].
  exists st', (answered_iteration cfg st results). split; [done|].
  apply execute_web_search_cases in Hok
    as [[? _] | [(_ & results' & Hp' & _ & ->) | (_ & e & Hp' & _)]];
    [done | | congruence].
  rewrite Hp in Hp'. by injection Hp' as <-.
Qed.

(** X8.  The search node keeps the queries it knows of: the executed
    queries followed by the pending ones are the same list before and
    after; [search_count] goes up by the number of queries it moved to the
    executed ones, and at most one search is stored per moved query. *)
Theorem execute_web_search_conserves_queries (st st' : AgentState) :
  execute_web_search cfg env st = Ok st' ->
  queries_executed st' ++ pending_queries st' =
    queries_executed st ++ pending_queries st
  /\ search_count st' - search_count st =
     PyList.len (queries_executed st') - PyList.len (queries_executed st)
  /\ PyList.len (search_memory st') - PyList.len (search_memory st) <=
     PyList.len (queries_executed st') - PyList.len (queries_executed st).
Proof.
  intros [[_ ->] | [(_ & results & _ & Hlen & ->) | (_ & e & _ & ->)]]%execute_web_search_cases;
    simpl; unfold PyList.len; try (repeat split; lia).
  split; [rewrite <- app_assoc; f_equal; apply PyListFacts.slice_to_from|].
  rewrite !length_app. split; [lia|].
  pose proof (omap_length_le (stored_answer (current_depth st))
                (zip (batch_of cfg st) results)) as Ho.
  rewrite length_zip in Ho. lia.
Qed.

(** X9.  With [max_queries_per_depth] at least one, a search iteration
    that records no error moves a non-empty batch of at most
    [max_queries_per_depth] queries from the head of the pending queries
    to the executed ones. *)
Theorem execute_web_search_consumes_batch (st st' : AgentState) :
  1 <= max_queries_per_depth cfg ->
  pending_queries st <> [] ->
  execute_web_search cfg env st = Ok st' ->
  error_count st' = error_count st ->
  exists batch,
    pending_queries st = batch ++ pending_queries st' /\
    queries_executed st' = queries_executed st ++ batch /\
    1 <= PyList.len batch <= max_queries_per_depth cfg.
Proof.
  intros Hmax Hpending
    [[? _] | [(_ & results & _ & Hlen & ->) | (_ & e & _ & ->)]]%execute_web_search_cases;
    [done | | simpl; lia].
  intros _. exists (batch_of cfg st). simpl.
  split; [symmetry; apply PyListFacts.slice_to_from|]. split; [done|].
  unfold batch_of, PyList.slice_to, PyList.clamp, PyList.len.
  destruct (Z.ltb_spec (max_queries_per_depth cfg) 0); [lia|].
  rewrite length_take.
  destruct (pending_queries st); [done|]. simpl length. lia.
Qed.

End SearchNode.

(** ** The other nodes: what they leave in the state *)

Section OtherNodes.
Context (cfg : Settings) (env : Collaborators).

Ltac case_result :=
  match goal with
  | H : context [match ?r with Ok _ => _ | Raise _ => _ | Hang => _ end] |- _ =>
      destruct r eqn:?; simpl in H
  end.

Lemma generate_search_queries_cases (st st' : AgentState) :
  generate_search_queries env st = Ok st' ->
  (exists queries,
     st' = set_iteration_count (iteration_count st + 1)
             (set_pending_queries queries st))
  \/ st' = set_pending_queries [] (set_error_count (error_count st + 1) st).
Proof.
  unfold generate_search_queries, try_except, mbind, Result_bind. cbv zeta.
  intros H. repeat case_result; simplify_eq/=; eauto.
Qed.


Lemma analyze_and_reflect_cases (st st' : AgentState) :
  analyze_and_reflect cfg env st = Ok st' ->
  (search_memory st = [] /\ st' = st)
  \/ (search_memory st <> [] /\
      exists r merged,
        reflection_llm env st = Ok r /\
        (merge_entities_with_llm cfg env (discovered_entities st)
           (default "" (analysis_summary r))).1 = Ok merged /\
        st' =
          set_current_depth (current_depth st + 1)
            (set_should_continue (default true (r_should_continue r))
               (set_discovered_entities merged
                  (set_reflection_memory (reflection_memory st ++ [r]) st)))).
Proof.
  unfold analyze_and_reflect, mbind, Result_bind. cbv zeta.
  destruct (search_memory st) eqn:Hmem; simpl.
  { intros [= <-]. by left. }
  intros H. right. split; [done|].
  repeat case_result; simplify_eq/=. eauto.
Qed.

(** X11.  An analysis that is not skipped appends exactly one reflection
    and increments the depth by one; the [should_continue] flag it sets is
    false exactly when the latest reflection recommends to stop, which is
    what the routing reads; it never empties the entity mapping; and it
    leaves the search memory, the queries and the termination reason
    alone. *)
Theorem analyze_and_reflect_effects (st st' : AgentState) :
  search_memory st <> [] ->
  analyze_and_reflect cfg env st = Ok st' ->
  (exists r, reflection_llm env st = Ok r /\
             reflection_memory st' = reflection_memory st ++ [r])
  /\ current_depth st' = current_depth st + 1
  /\ (should_continue st' = false <-> latest_recommends_stop st')
  /\ (discovered_entities st <> ∅ -> discovered_entities st' <> ∅)
  /\ search_memory st' = search_memory st
  /\ queries_executed st' = queries_executed st
  /\ pending_queries st' = pending_queries st
  /\ termination_reason st' = termination_reason st.
Proof.
  intros Hmem [[? _] | (_ & r & merged & Hr & Hmerge & ->)]%analyze_and_reflect_cases;
    [done|]. simpl.
  split; [eauto|]. split; [done|]. split; [|split; [|done]].
  - unfold latest_recommends_stop. simpl. rewrite last_snoc. split.
    + intros H. exists r. split; [done|].
      by destruct (r_should_continue r) as [[|]|].
    + intros (r' & [= <-] & ->). done.
  - intros Hne. by eapply merge_entities_nonempty.
Qed.

Lemma map_connections_cases (st st' : AgentState) :
  map_connections cfg env st = Ok st' ->
  (discovered_entities st = ∅ /\ st' = st)
  \/ (discovered_entities st <> ∅ /\
      exists out g,
        map_entity_connections env (discovered_entities st)
          (reflection_memory st) (entity_graph st) = Ok out /\
        (merge_graph_with_llm cfg env (entity_graph st)
           (new_nodes out) (new_edges out)).1 = Ok g /\
        st' = set_key_entities (Some (key_entities_out out))
                (set_red_flags (red_flags st ++ suspicious_patterns out)
                   (set_entity_graph g st))).
Proof.
  unfold map_connections, mbind, Result_bind, entities_truthy. cbv zeta.
  case_bool_decide as Hent; simpl.
  - intros H. right. split; [done|]. repeat case_result; simplify_eq/=. eauto.
  - intros [= <-]. left. split; [|done].
    destruct (decide (discovered_entities st = ∅)); [done | by destruct Hent].
Qed.

(** X12.  Connection mapping does nothing without entities.  With
    entities, it appends the collaborator's suspicious patterns to the red
    flags, stores the merged graph, which is never an empty dict, and
    records the key entities; the depth, the memories and the termination
    reason stay as they are. *)
Theorem map_connections_effects (st st' : AgentState) :
  map_connections cfg env st = Ok st' ->
  (discovered_entities st = ∅ -> st' = st)
  /\ (discovered_entities st <> ∅ ->
      exists out,
        map_entity_connections env (discovered_entities st)
          (reflection_memory st) (entity_graph st) = Ok out /\
        red_flags st' = red_flags st ++ suspicious_patterns out /\
        key_entities st' = Some (key_entities_out out) /\
        graph_truthy (entity_graph st') = true)
  /\ current_depth st' = current_depth st
  /\ search_memory st' = search_memory st
  /\ reflection_memory st' = reflection_memory st
  /\ discovered_entities st' = discovered_entities st
  /\ termination_reason st' = termination_reason st.
Proof.
  intros [[Hent ->] | (Hent & out & g & Hout & Hg & ->)]%map_connections_cases.
  - repeat split; try done.
  - split; [done|]. split; [|done]. intros _. exists out. simpl.
    repeat split; try done.
    by eapply merge_graph_truthy.
Qed.

Lemma synthesize_report_cases (st st' : AgentState) :
  synthesize_report env st = Ok st' ->
  exists body,
    synthesis_run env st = Ok body /\
    let report :=
      {| report_body := body;
         md_research_depth := current_depth st;
         md_total_queries := PyList.len (queries_executed st);
         md_total_sources :=
           fold_left (fun acc s => acc + sources_found s) (search_iterations st) 0;
         md_termination_reason := termination_reason st;
         report_entity_graph := entity_graph st |} in
    let done := set_should_continue false (set_final_report (Some report) st) in
    st' = if option_truthy (termination_reason st) then done
          else set_termination_reason (Some "report_synthesized") done.
Proof.
  unfold synthesize_report, mbind, Result_bind. cbv zeta.
  destruct (synthesis_run env st) as [body|e|]; simpl; [|done|done].
  intros [= <-]. exists body. split; [done|].
  by destruct (option_truthy (termination_reason st)).
Qed.

(** X13.  A synthesis that returns clears [should_continue] and stores a
    report whose metadata are those of the state: depth, number of
    executed queries, total of the sources found, entity graph.  A
    termination reason that is set is kept and is the one in the report;
    when none is set, the state gets "report_synthesized" while the report
    keeps the unset value it was built with. *)
Theorem synthesize_report_effects (st st' : AgentState) :
  synthesize_report env st = Ok st' ->
  should_continue st' = false
  /\ (exists report,
        final_report st' = Some report /\
        md_research_depth report = current_depth st' /\
        md_total_queries report = PyList.len (queries_executed st') /\
        md_total_sources report =
          fold_left (fun acc s => acc + sources_found s) (search_iterations st') 0 /\
        report_entity_graph report = entity_graph st' /\
        md_termination_reason report = termination_reason st)
  /\ (option_truthy (termination_reason st) = true ->
      termination_reason st' = termination_reason st)
  /\ (option_truthy (termination_reason st) = false ->
      termination_reason st' = Some "report_synthesized" /\
      termination_reason st' <> termination_reason st).
Proof.
  intros (body & _ & ->)%synthesize_report_cases. cbv zeta.
  destruct (option_truthy (termination_reason st)) eqn:Ht; simpl.
  - split; [done|]. split; [eauto 10|]. split; done.
  - split; [done|]. split; [eauto 10|]. split; [done|].
    intros _. split; [done|]. intros Heq. rewrite <- Heq in Ht. done.
Qed.

End OtherNodes.

(** ** Runs of the graph: what every step keeps *)

Section RunInvariants.
Context (cfg : Settings) (env : Collaborators).

#[local] Instance grows_refl : Reflexive grows.
Proof. intros st. split; done. Qed.

#[local] Instance grows_trans : Transitive grows.
Proof.
  intros a b c [] []. split; try congruence; try lia; by etrans.
Qed.

Ltac grows_setters :=
  split; simpl; try done; try lia; try (by apply prefix_app_r).

Lemma run_node_grows (n : Node) (st post : AgentState) :
  run_node cfg env n st = Ok post -> grows st post.
Proof.
  destruct n; simpl.
  - intros [[queries ->] | ->]%generate_search_queries_cases; grows_setters.
  - intros [[_ ->] | [(_ & results & _ & _ & ->) | (_ & e & _ & ->)]]%execute_web_search_cases;
      try done; grows_setters. unfold PyList.len. lia.
  - intros [[_ ->] | (_ & r & merged & _ & _ & ->)]%analyze_and_reflect_cases;
      try done; grows_setters.
  - intros [[_ ->] | (_ & out & g & _ & _ & ->)]%map_connections_cases;
      try done; grows_setters.
  - intros (body & _ & ->)%synthesize_report_cases. cbv zeta.
    destruct (option_truthy (termination_reason st)); grows_setters.
Qed.

(** Following an edge changes at most the termination reason. *)
Lemma follow_edges_state (n : Node) (post st' : AgentState) (next : Next) :
  follow_edges cfg n post = (next, st') ->
  exists reason, st' = set_termination_reason reason post.
Proof.
  assert (Hid : post = set_termination_reason (termination_reason post) post)
    by by destruct post.
  destruct n; simpl; try (intros [= _ <-]; eauto).
  unfold should_continue_research. cbv zeta.
  repeat (match goal with |- context [if ?b then _ else _] => destruct b end);
    simpl; intros [= _ <-]; eauto.
Qed.

Lemma follow_edges_grows (n : Node) (post st' : AgentState) (next : Next) :
  follow_edges cfg n post = (next, st') -> grows post st'.
Proof. intros [reason ->]%follow_edges_state. split; done. Qed.

(** An invariant that depends on the node about to run. *)
Lemma run_from_steps (P : Node -> AgentState -> Prop) :
  (forall n st post n' st',
     P n st -> run_node cfg env n st = Ok post ->
     follow_edges cfg n post = (Goto n', st') -> P n' st') ->
  forall limit n st,
    P n st ->
    Forall (fun s => P (step_node s) (step_pre s) /\
                     run_node cfg env (step_node s) (step_pre s) = Ok (step_post s))
           (run_from cfg env limit n st).1.
Proof.
  intros Hstep. induction limit as [|limit IH]; intros n st HP; [constructor|].
  destruct (run_from_cases cfg env limit n st)
    as [(e & _ & ->) | [[_ ->] | [(post & n' & st' & Hrun & Hf & _ & ->)
                                 | (post & -> & Hrun & ->)]]];
    simpl; repeat constructor; try done.
  apply IH. by eapply Hstep.
Qed.

Lemma run_from_completed_last limit : forall n st final,
  (run_from cfg env limit n st).2 = Completed final ->
  exists s, last (run_from cfg env limit n st).1 = Some s /\
            step_node s = N_synthesize_report /\ step_post s = final.
Proof.
  induction limit as [|limit IH]; intros n st final; [done|].
  destruct (run_from_cases cfg env limit n st)
    as [(e & _ & ->) | [[_ ->] | [(post & n' & st' & _ & _ & _ & ->)
                                 | (post & -> & _ & ->)]]];
    simpl; try done.
  - intros Hc. destruct (IH _ _ _ Hc) as (s & Hl & Hs).
    exists s. split; [|done]. rewrite last_cons, Hl. done.
  - intros [= <-]. eauto.
Qed.

(** What follows a step of a run is a run from that step. *)
Lemma run_from_drop limit : forall n st i a,
  (run_from cfg env limit n st).1 !! i = Some a ->
  exists limit',
    drop i (run_from cfg env limit n st).1 =
      (run_from cfg env limit' (step_node a) (step_pre a)).1.
Proof.
  induction limit as [|limit IH]; intros n st i a; [done|].
  destruct i as [|i].
  - intros Hi. exists (S limit). rewrite drop_0.
    assert (step_node a = n /\ step_pre a = st) as [<- <-]; [|done].
    revert Hi.
    destruct (run_from_cases cfg env limit n st)
      as [(e & _ & ->) | [[_ ->] | [(post & n' & st' & _ & _ & _ & ->)
                                   | (post & _ & _ & ->)]]];
      simpl; try done; by intros [= <-].
  - destruct (run_from_cases cfg env limit n st)
      as [(e & _ & ->) | [[_ ->] | [(post & n' & st' & _ & _ & _ & ->)
                                   | (post & _ & _ & ->)]]];
      simpl; try done. apply IH.
Qed.

(** ** Runs of the graph from an initialized session *)

Lemma run_from_grows_from_start limit : forall n st j b,
  (run_from cfg env limit n st).1 !! j = Some b ->
  grows st (step_post b).
Proof.
  induction limit as [|limit IH]; intros n st j b; [done|].
  destruct (run_from_cases cfg env limit n st)
    as [(e & _ & ->) | [[_ ->] | [(post & n' & st' & Hrun & Hf & _ & ->)
                                 | (post & _ & Hrun & ->)]]];
    simpl; try done.
  - destruct j as [|j]; simpl.
    + intros [= <-]. by eapply run_node_grows.
    + intros Hb. etrans; [by eapply run_node_grows|].
      etrans; [by eapply follow_edges_grows|]. by eapply IH.
  - destruct j as [|j]; simpl; [|done].
    intros [= <-]. by eapply run_node_grows.
Qed.

Lemma run_from_grows limit n st i j a b :
  (i <= j)%nat ->
  (run_from cfg env limit n st).1 !! i = Some a ->
  (run_from cfg env limit n st).1 !! j = Some b ->
  grows (step_pre a) (step_post b).
Proof.
  intros Hij Ha Hb.
  destruct (run_from_drop limit n st i a Ha) as [limit' Hd].
  eapply (run_from_grows_from_start limit' _ _ (j - i)).
  rewrite <- Hd, lookup_drop.
  by replace (i + (j - i))%nat with j by lia.
Qed.

(** X14.  A run only ever adds to its logs.  What identifies the session
    stays as it is, and the executed queries, the search memory, the
    reflections, the search iterations and the red flags that a step
    starts from are a prefix of those any later step ends with, and of
    those of the final state; the depth and the counters never go down. *)
Theorem run_is_append_only (limit : nat) (init : InitialState)
    (i j : nat) (a b : Step) :
  let run := run_graph cfg env limit init in
  (i <= j)%nat ->
  run.1 !! i = Some a ->
  run.1 !! j = Some b ->
  grows (step_pre a) (step_post b)
  /\ (forall final, run.2 = Completed final -> grows (step_pre a) final).
Proof.
  cbv zeta. intros Hij Ha Hb.
  destruct (run_graph_cases cfg env limit init)
    as [[Hnil _] | (limit' & st & -> & _ & Hrun)].
  { by rewrite Hnil in Ha. }
  rewrite Hrun in *. split; [by eapply run_from_grows|].
  intros final (s & Hlast & _ & <-)%run_from_completed_last.
  rewrite last_lookup in Hlast.
  eapply (run_from_grows _ _ _ i); [|done|exact Hlast].
  apply lookup_lt_Some in Ha. lia.
Qed.

Lemma initialize_session_state (init : InitialState) (st : AgentState) :
  initialize_session init = Ok st ->
  current_depth st = 0 /\ search_count st = 0 /\
  queries_executed st = [] /\ reflection_memory st = [] /\
  search_memory st = [] /\ termination_reason st = None.
Proof.
  unfold initialize_session. destruct (negb _); [done|]. by intros [= <-].
Qed.

Lemma run_node_counters (n : Node) (st post : AgentState) :
  counters_agree st -> run_node cfg env n st = Ok post -> counters_agree post.
Proof.
  unfold counters_agree, PyList.len. intros [Hd Hs].
  destruct n; simpl.
  - by intros [[queries ->] | ->]%generate_search_queries_cases.
  - intros [[_ ->] | [(_ & results & _ & _ & ->) | (_ & e & _ & ->)]]%execute_web_search_cases;
      try done; simpl.
    split; [done|]. rewrite length_app. unfold PyList.len. lia.
  - intros [[_ ->] | (_ & r & merged & _ & _ & ->)]%analyze_and_reflect_cases;
      try done; simpl.
    split; [|done]. rewrite length_app. simpl. lia.
  - by intros [[_ ->] | (_ & out & g & _ & _ & ->)]%map_connections_cases.
  - intros (body & _ & ->)%synthesize_report_cases. cbv zeta.
    by destruct (option_truthy (termination_reason st)).
Qed.

(** X15.  In a run, the depth is the number of reflections and the search
    count is the number of executed queries: at the start and at the end
    of every step, and in the final state. *)
Theorem run_counters_agree (limit : nat) (init : InitialState) (s : Step) :
  let run := run_graph cfg env limit init in
  s ∈ run.1 ->
  counters_agree (step_pre s) /\ counters_agree (step_post s)
  /\ (forall final, run.2 = Completed final -> counters_agree final).
Proof.
  cbv zeta. intros Hs.
  destruct (run_graph_cases cfg env limit init)
    as [[Hnil _] | (limit' & st & -> & Hinit & Hrun)].
  { rewrite Hnil in Hs. by apply elem_of_nil in Hs. }
  rewrite Hrun in *.
  apply initialize_session_state in Hinit as (Hd & Hc & Hq & Hr & _).
  assert (Hall : Forall (fun s => counters_agree (step_pre s) /\
                   run_node cfg env (step_node s) (step_pre s) = Ok (step_post s))
                 (run_from cfg env limit' N_generate_queries st).1).
  { apply (run_from_steps (fun _ st => counters_agree st)).
    - intros n st1 post n' st' HP Hrn [reason ->]%follow_edges_state.
      by apply (run_node_counters n st1 post HP) in Hrn.
    - unfold counters_agree. by rewrite Hd, Hc, Hq, Hr. }
  rewrite Forall_forall in Hall.
  split; [by apply Hall|]. split.
  - destruct (Hall s Hs) as [HP Hrn]. by eapply run_node_counters.
  - intros final (l & Hlast & _ & <-)%run_from_completed_last.
    apply last_Some_elem_of in Hlast.
    destruct (Hall l Hlast) as [HP Hrn]. by eapply run_node_counters.
Qed.



Lemma stored_answer_depth (d : Z) (pairs : list (string * WebSearchOutput)) :
  Forall (fun s => sm_depth s = d) (omap (stored_answer d) pairs).
Proof.
  induction pairs as [|qr pairs IH]; [constructor|].
  change (omap (stored_answer d) (qr :: pairs))
    with (match stored_answer d qr with
          | Some s => s :: omap (stored_answer d) pairs
          | None => omap (stored_answer d) pairs
          end).
  unfold stored_answer at 1.
  destruct (PyStr.truthy _); [constructor|]; done.
Qed.

Lemma memory_depths_step n st post n' st' :
  memory_depths n st -> run_node cfg env n st = Ok post ->
  follow_edges cfg n post = (Goto n', st') -> memory_depths n' st'.
Proof.
  intros HP Hrn Hf.
  pose proof (follow_edges_graph_edge cfg _ _ _ _ Hf) as He.
  apply follow_edges_state in Hf as [reason ->].
  destruct n; simpl in HP, Hrn.
  - destruct n'; try discriminate He. simpl.
    by apply generate_search_queries_cases in Hrn as [[queries ->] | ->].
  - destruct n'; try discriminate He. simpl.
    apply execute_web_search_cases in Hrn
      as [[_ ->] | [(_ & results & _ & _ & ->) | (_ & e & _ & ->)]]; simpl.
    + eapply Forall_impl; [done|]. simpl. lia.
    + apply Forall_app. split.
      * eapply Forall_impl; [done|]. simpl. lia.
      * eapply Forall_impl; [apply stored_answer_depth|]. simpl. lia.
    + eapply Forall_impl; [done|]. simpl. lia.
  - apply analyze_and_reflect_cases in Hrn
      as [[Hmem ->] | (_ & r & merged & _ & _ & ->)].
    + destruct n'; try discriminate He; simpl; rewrite Hmem; constructor.
    + destruct n'; try discriminate He; simpl;
        (eapply Forall_impl; [done|]); simpl; lia.
  - destruct n'; try discriminate He. simpl.
    by apply map_connections_cases in Hrn as [[_ ->] | (_ & out & g & _ & _ & ->)].
  - destruct n'; discriminate He.
Qed.

Lemma filter_depth_none (d : Z) (l : list SearchMemoryEntry) :
  Forall (fun s => sm_depth s < d) l -> filter (fun s => sm_depth s = d) l = [].
Proof.
  induction 1 as [|s l Hs _ IH]; [done|].
  rewrite filter_cons_False; [done | lia].
Qed.

Lemma filter_depth_all (d : Z) (l : list SearchMemoryEntry) :
  Forall (fun s => sm_depth s = d) l -> filter (fun s => sm_depth s = d) l = l.
Proof.
  induction 1 as [|s l Hs _ IH]; [done|].
  rewrite filter_cons_True; [by rewrite IH | done].
Qed.

(** X17.  In a run, the analysis always comes directly after a search
    step, and the searches the reflection prompt shows are exactly the
    entries that this search step added to the search memory: the memory
    the analysis receives is the memory the search started from, followed
    by the entries shown. *)
Theorem reflection_prompt_shows_latest_searches (limit : nat)
    (init : InitialState) (i : nat) (a b : Step) :
  let run := run_graph cfg env limit init in
  run.1 !! i = Some a ->
  run.1 !! S i = Some b ->
  step_node b = N_analyze_and_reflect ->
  step_node a = N_execute_search
  /\ search_memory (step_pre b) =
       search_memory (step_pre a) ++ current_depth_searches (step_pre b).
Proof.
  cbv zeta. intros Ha Hb Hnode.
  destruct (run_graph_cases cfg env limit init)
    as [[Hnil _] | (limit' & st & -> & Hinit & Hrun)].
  { by rewrite Hnil in Ha. }
  rewrite Hrun in *.
  pose proof (run_from_adjacent cfg env limit' _ _ _ _ _ Ha Hb) as Hf.
  rewrite Hnode in Hf.
  pose proof (follow_edges_graph_edge cfg _ _ _ _ Hf) as He.
  assert (Hsearch : step_node a = N_execute_search)
    by (destruct (step_node a); try discriminate He; done).
  split; [done|].
  apply initialize_session_state in Hinit as (_ & _ & _ & _ & Hmem & _).
  assert (Hall : Forall (fun s => memory_depths (step_node s) (step_pre s) /\
                   run_node cfg env (step_node s) (step_pre s) = Ok (step_post s))
                 (run_from cfg env limit' N_generate_queries st).1).
  { apply (run_from_steps memory_depths memory_depths_step).
    simpl. rewrite Hmem. constructor. }
  rewrite Forall_forall in Hall.
  destruct (Hall a (list_elem_of_lookup_2 _ _ _ Ha)) as [HP Hrn].
  rewrite Hsearch in HP, Hrn, Hf. simpl in HP, Hrn, Hf.
  injection Hf as <-.
  unfold current_depth_searches.
  apply execute_web_search_cases in Hrn
    as [[_ ->] | [(_ & results & _ & _ & ->) | (_ & e & _ & ->)]]; simpl.
  - rewrite filter_depth_none by done. by destruct (PyList.truthy _); rewrite app_nil_r.
  - destruct (PyList.truthy _) eqn:Ht.
    + rewrite filter_app, filter_depth_none by done. simpl.
      by rewrite filter_depth_all by apply stored_answer_depth.
    + apply PyListFacts.truthy_false in Ht. rewrite Ht.
      apply app_eq_nil in Ht as [-> _]. done.
  - rewrite filter_depth_none by done. by destruct (PyList.truthy _); rewrite app_nil_r.
Qed.

Lemma run_node_within_cap (cap : Z) (n : Node) (st post : AgentState) :
  within_cap cap n st -> run_node cfg env n st = Ok post ->
  max_depth post = cap
  /\ current_depth post <= Z.max 1 cap
  /\ (current_depth post = current_depth st
      \/ n = N_analyze_and_reflect /\ current_depth post = current_depth st + 1).
Proof.
  intros [Hmax Hd] Hrn.
  pose proof (run_node_grows _ _ _ Hrn) as [_ _ _ Hm _ _ _ _ _ _ _ _ _].
  split; [congruence|].
  destruct n; simpl in Hd, Hrn.
  - apply generate_search_queries_cases in Hrn as [[queries ->] | ->]; simpl;
      (split; [lia | by left]).
  - apply execute_web_search_cases in Hrn
      as [[_ ->] | [(_ & results & _ & _ & ->) | (_ & e & _ & ->)]]; simpl;
      (split; [lia | by left]).
  - apply analyze_and_reflect_cases in Hrn
      as [[_ ->] | (_ & r & merged & _ & _ & ->)]; simpl.
    + split; [lia | by left].
    + split; [lia | by right].
  - apply map_connections_cases in Hrn as [[_ ->] | (_ & out & g & _ & _ & ->)];
      simpl; (split; [lia | by left]).
  - apply synthesize_report_cases in Hrn as (body & _ & ->). cbv zeta.
    destruct (option_truthy (termination_reason st)); simpl;
      (split; [lia | by left]).
Qed.

Lemma within_cap_step (cap : Z) n st post n' st' :
  within_cap cap n st -> run_node cfg env n st = Ok post ->
  follow_edges cfg n post = (Goto n', st') -> within_cap cap n' st'.
Proof.
  intros HP Hrn Hf.
  destruct (run_node_within_cap cap n st post HP Hrn) as (Hmax & Hcap & Hd).
  destruct HP as [_ HP].
  destruct n.
  - simpl in Hf. injection Hf as <- <-. split; [done|]. simpl.
    destruct Hd as [-> | [? _]]; done.
  - simpl in Hf. injection Hf as <- <-. split; [done|]. simpl.
    destruct Hd as [-> | [? _]]; done.
  - apply follow_edges_analyze in Hf as (Hd' & Hm' & [-> | [-> Hlt]]).
    + split; [congruence|]. simpl. lia.
    + split; [congruence|]. simpl. right. lia.
  - simpl in Hf. injection Hf as <- <-. split; [done|]. simpl. lia.
  - done.
Qed.

Lemma run_graph_within_cap (limit : nat) (init : InitialState) (st : AgentState) :
  initialize_session init = Ok st ->
  Forall (fun s => within_cap (i_max_depth init) (step_node s) (step_pre s) /\
            run_node cfg env (step_node s) (step_pre s) = Ok (step_post s))
         (run_from cfg env limit N_generate_queries st).1.
Proof.
  intros Hinit.
  assert (Hmax : max_depth st = i_max_depth init).
  { revert Hinit. unfold initialize_session. destruct (negb _); [done|].
    by intros [= <-]. }
  apply initialize_session_state in Hinit as (Hd & _ & _ & _ & _ & _).
  apply (run_from_steps (within_cap (i_max_depth init))
           (within_cap_step (i_max_depth init))).
  split; [done|]. simpl. by left.
Qed.

Lemma completed_within_cap (limit : nat) (init : InitialState) (final : AgentState) :
  (run_graph cfg env limit init).2 = Completed final ->
  current_depth final <= Z.max 1 (i_max_depth init).
Proof.
  destruct (run_graph_cases cfg env limit init)
    as [[_ Hnc] | (limit' & st & -> & Hinit & Hrun)].
  { intros H. by destruct (Hnc final). }
  rewrite Hrun. intros (l & Hlast & _ & <-)%run_from_completed_last.
  apply last_Some_elem_of in Hlast.
  pose proof (run_graph_within_cap limit' init st Hinit) as Hall.
  rewrite Forall_forall in Hall.
  destruct (Hall l Hlast) as [HPl Hrnl].
  by destruct (run_node_within_cap _ _ _ _ HPl Hrnl) as (_ & Hcapl & _).
Qed.

(** X18.  The depth of a run never exceeds the cap, or 1 when the cap is
    below 1: in every step the depth stays or, in an analysis, goes up by
    one, and it ends at most at the larger of 1 and the [max_depth] the
    session was started with; so does the depth of the final state. *)
Theorem depth_stays_within_cap (limit : nat) (init : InitialState) (s : Step) :
  let run := run_graph cfg env limit init in
  s ∈ run.1 ->
  0 <= current_depth (step_pre s) <= current_depth (step_post s)
  /\ current_depth (step_post s) <= current_depth (step_pre s) + 1
  /\ current_depth (step_post s) <= Z.max 1 (i_max_depth init)
  /\ (forall final, run.2 = Completed final ->
        current_depth final <= Z.max 1 (i_max_depth init)).
Proof.
  cbv zeta. intros Hs.
  destruct (run_graph_cases cfg env limit init)
    as [[Hnil _] | (limit' & st & -> & Hinit & Hrun)].
  { rewrite Hnil in Hs. by apply elem_of_nil in Hs. }
  pose proof (completed_within_cap (S limit') init) as Hfinal.
  rewrite Hrun in *.
  pose proof (run_graph_within_cap limit' init st Hinit) as Hall.
  apply initialize_session_state in Hinit as (Hd & _ & _ & _ & _ & _).
  rewrite Forall_forall in Hall.
  assert (Hpos : forall x, x ∈ (run_from cfg env limit' N_generate_queries st).1 ->
                           0 <= current_depth (step_pre x)).
  { intros x [i Hx]%list_elem_of_lookup_1.
    destruct (lookup_lt_is_Some_2 (run_from cfg env limit' N_generate_queries st).1 0)
      as [x0 Hx0]; [apply lookup_lt_Some in Hx; lia|].
    pose proof (run_from_grows limit' _ _ 0 i x0 x ltac:(lia) Hx0 Hx) as Hg.
    destruct (run_from_drop limit' _ _ 0 x0 Hx0) as [limit0 Hdrop].
    assert (Hst : step_pre x0 = st).
    { revert Hx0. destruct limit' as [|limit'']; [done|].
      destruct (run_from_cases cfg env limit'' N_generate_queries st)
        as [(e & _ & ->) | [[_ ->] | [(post & n' & st' & _ & _ & _ & ->)
                                     | (post & _ & _ & ->)]]];
        simpl; try done; by intros [= <-]. }
    destruct (Hall x (list_elem_of_lookup_2 _ _ _ Hx)) as [_ Hrn].
    destruct (Hall x0 (list_elem_of_lookup_2 _ _ _ Hx0)) as [_ Hrn0].
    destruct i as [|i].
    - rewrite Hx0 in Hx. injection Hx as <-. rewrite Hst. lia.
    - destruct (lookup_lt_is_Some_2 (run_from cfg env limit' N_generate_queries st).1 i)
        as [y Hy]; [apply lookup_lt_Some in Hx; lia|].
      pose proof (run_from_grows limit' _ _ 0 i x0 y ltac:(lia) Hx0 Hy) as Hgy.
      pose proof (run_from_adjacent cfg env limit' _ _ _ _ _ Hy Hx) as Hf.
      apply follow_edges_grows in Hf.
      destruct Hgy, Hf. rewrite Hst in *. lia. }
  destruct (Hall s Hs) as [HP Hrn].
  destruct (run_node_within_cap _ _ _ _ HP Hrn) as (_ & Hcap & Hstep).
  pose proof (Hpos s Hs) as Hs0.
  split; [destruct Hstep as [-> | [_ ->]]; lia|].
  split; [destruct Hstep as [-> | [_ ->]]; lia|].
  split; [done|]. exact Hfinal.
Qed.


End RunInvariants.

(** ** The fan-out without permits *)

Section NoPermits.
Context (env : Collaborators).
Import Fanout.

(** X20.  A semaphore of value 0 is accepted, and then nothing can happen:
    from the pool the fan-out starts with no event is enabled, so the only
    schedule is the empty one; with at least one query [gather] never has
    a result, and [parallel_search] does not return. *)
Theorem fanout_without_permits (queries : list string) (ctx : string) :
  let search := fun q => openai_web_search env q ctx in
  exists p0,
    start 0 queries = Ok p0
    /\ (forall ev, step search queries p0 ev = None)
    /\ (forall schedule p, run search queries p0 schedule = Some p -> schedule = [])
    /\ (queries <> [] ->
        gathered p0 = None /\ parallel_search env queries ctx 0 = Hang).
Proof.
  cbv zeta. eexists. split; [reflexivity|].
  assert (Hstep : forall ev,
            step (fun q => openai_web_search env q ctx) queries
                 {| permits := 0; tasks := replicate (length queries) Waiting;
                    raised := None |} ev = None).
  { intros [i|i]; simpl.
    - destruct (replicate _ _ !! i) as [t|] eqn:Ht; [|done].
      apply lookup_replicate in Ht as [-> _]. done.
    - destruct (replicate _ _ !! i) as [t|] eqn:Ht; [|done].
      apply lookup_replicate in Ht as [-> _]. done. }
  split; [exact Hstep|]. split.
  - intros [|ev schedule] p; [done|]. simpl. by rewrite Hstep.
  - intros Hq. destruct queries as [|q queries']; [done|]. split; done.
Qed.

End NoPermits.

(** ** Text helpers *)

Section TextHelpers.
Import PyStrMore.

Lemma take_length (n : nat) (s : string) :
  String.length (take n s) = Nat.min n (String.length s).
Proof.
  revert s. induction n as [|n IH]; intros [|c s]; simpl; try done.
  by rewrite IH.
Qed.

Lemma append_length (s t : string) :
  String.length (s +:+ t) = (String.length s + String.length t)%nat.
Proof. induction s as [|c s IH]; simpl; [done | by rewrite IH]. Qed.

Lemma take_append (n : nat) (s t : string) :
  (n <= String.length s)%nat -> take n (s +:+ t) = take n s.
Proof.
  revert s. induction n as [|n IH]; intros s Hn; [by destruct s|].
  destruct s as [|c s]; simpl in *; [lia|]. rewrite IH; [done | lia].
Qed.

Lemma take_all (n : nat) (s : string) :
  (String.length s <= n)%nat -> take n s = s.
Proof.
  revert s. induction n as [|n IH]; intros [|c s] Hn; simpl in *; try done; [lia|].
  rewrite IH; [done | lia].
Qed.

Lemma len_slice_to (n : Z) (s : string) :
  PyStr.len (slice_to n s) =
    if n <? 0 then Z.max 0 (PyStr.len s + n) else Z.min n (PyStr.len s).
Proof.
  unfold slice_to, PyStr.len. rewrite take_length.
  destruct (Z.ltb_spec n 0); lia.
Qed.

(** X21.  With a bound of at least 3, [truncate_text] returns a text of
    length the smaller of the bound and the length of its input.  With a
    bound below 3, a text longer than the bound comes back longer than the
    bound: the three dots alone exceed it. *)
Theorem truncate_text_length (text : string) (max_length : Z) :
  (3 <= max_length ->
   PyStr.len (truncate_text text max_length) = Z.min (PyStr.len text) max_length)
  /\ (max_length < 3 -> max_length < PyStr.len text ->
      max_length < PyStr.len (truncate_text text max_length)).
Proof.
  unfold truncate_text.
  assert (Hlen : PyStr.len (slice_to (max_length - 3) text +:+ "...") =
                 PyStr.len (slice_to (max_length - 3) text) + 3).
  { unfold PyStr.len. rewrite append_length. simpl. lia. }
  split.
  - intros Hmax. destruct (Z.leb_spec (PyStr.len text) max_length); [lia|].
    rewrite Hlen, len_slice_to. destruct (Z.ltb_spec (max_length - 3) 0); lia.
  - intros Hmax Hlong. destruct (Z.leb_spec (PyStr.len text) max_length); [lia|].
    rewrite Hlen, len_slice_to. destruct (Z.ltb_spec (max_length - 3) 0); lia.
Qed.

Lemma truncate_for_display_again (s : string) (max_chars : Z) :
  0 <= max_chars ->
  PyStr.len (truncate_for_display s max_chars) <= max_chars + 3
  /\ truncate_for_display (truncate_for_display s max_chars) max_chars =
       truncate_for_display s max_chars.
Proof.
  intros Hmax. unfold truncate_for_display.
  destruct (Z.ltb_spec max_chars (PyStr.len s)) as [Hlong|Hshort].
  - assert (Hlen : PyStr.len (slice_to max_chars s +:+ "...") = max_chars + 3).
    { unfold PyStr.len at 1. rewrite append_length. simpl.
      pose proof (len_slice_to max_chars s) as Hl. unfold PyStr.len at 1 in Hl.
      destruct (Z.ltb_spec max_chars 0); lia. }
    split; [lia|].
    rewrite Hlen. destruct (Z.ltb_spec max_chars (max_chars + 3)); [|lia].
    f_equal. unfold slice_to at 1. rewrite Hlen.
    destruct (Z.ltb_spec max_chars 0); [lia|].
    replace (Z.min max_chars (max_chars + 3)) with max_chars by lia.
    rewrite take_append.
    + unfold slice_to. destruct (Z.ltb_spec max_chars 0); [lia|].
      replace (Z.min max_chars (PyStr.len s)) with max_chars by lia.
      apply take_all. rewrite take_length. lia.
    + pose proof (len_slice_to max_chars s) as Hl. unfold PyStr.len at 1 in Hl.
      destruct (Z.ltb_spec max_chars 0); lia.
  - split; [lia|].
    by destruct (Z.ltb_spec max_chars (PyStr.len s)); [lia|].
Qed.

(** X22.  With a bound that is not negative, the console truncation
    returns at most three characters more than the bound, leaves a string
    within the bound as it is, and truncating its result again changes
    nothing. *)
Theorem truncate_for_display_idempotent (s : string) (max_chars : Z) :
  0 <= max_chars ->
  PyStr.len (truncate_for_display s max_chars) <= max_chars + 3
  /\ (PyStr.len s <= max_chars -> truncate_for_display s max_chars = s)
  /\ truncate_for_display (truncate_for_display s max_chars) max_chars =
       truncate_for_display s max_chars.
Proof.
  intros Hmax.
  destruct (truncate_for_display_again s max_chars Hmax) as [Hlen Hagain].
  split; [done|]. split; [|done].
  unfold truncate_for_display. intros Hshort.
  by destruct (Z.ltb_spec max_chars (PyStr.len s)); [lia|].
Qed.

End TextHelpers.

(** ** Truncation of logged data *)

Section LogTruncation.

Lemma LogData_nested_ind (P : LogData -> Prop) :
  (forall s, P (L_str s)) ->
  (forall items, Forall (fun kv => P kv.2) items -> P (L_dict items)) ->
  (forall items, Forall P items -> P (L_list items)) ->
  (forall s, P (L_other s)) ->
  forall d, P d.
Proof.
  intros Hs Hd Hl Ho. fix IH 1. intros [s|items|items|s].
  - apply Hs.
  - apply Hd. induction items as [|[k v] items IHitems]; constructor.
    + apply IH.
    + exact IHitems.
  - apply Hl. induction items as [|item items IHitems]; constructor.
    + apply IH.
    + exact IHitems.
  - apply Ho.
Qed.

Lemma truncate_for_log_str (s : string) (max_chars : Z) :
  truncate_for_log (L_str s) max_chars = L_str (truncate_for_display s max_chars).
Proof. done. Qed.

Lemma first_items (f : LogData -> LogData) (n : nat)
    (items : list (string * LogData)) :
  (fix first (n : nat) (items : list (string * LogData)) :=
     match n, items with
     | S n', (k, v) :: items' => (k, f v) :: first n' items'
     | _, _ => []
     end) n items =
  map (fun kv => (kv.1, f kv.2)) (take n items).
Proof.
  revert n. induction items as [|[k v] items IH]; intros [|n]; simpl; try done.
  by rewrite IH.
Qed.

Lemma first_elements (f : LogData -> LogData) (n : nat) (items : list LogData) :
  (fix first (n : nat) (items : list LogData) :=
     match n, items with
     | S n', item :: items' => f item :: first n' items'
     | _, _ => []
     end) n items =
  map f (take n items).
Proof.
  revert n. induction items as [|item items IH]; intros [|n]; simpl; try done.
  by rewrite IH.
Qed.

Lemma truncate_for_log_dict (items : list (string * LogData)) (max_chars : Z) :
  truncate_for_log (L_dict items) max_chars =
    L_dict (map (fun kv => (kv.1, truncate_for_log kv.2 (max_chars / 2)))
                (take 10 items)).
Proof.
  exact (f_equal L_dict
           (first_items (fun v => truncate_for_log v (max_chars / 2)) 10 items)).
Qed.

Lemma truncate_for_log_list (items : list LogData) (max_chars : Z) :
  truncate_for_log (L_list items) max_chars =
    L_list (map (fun item => truncate_for_log item (max_chars / 4)) (take 10 items)).
Proof.
  exact (f_equal L_list
           (first_elements (fun v => truncate_for_log v (max_chars / 4)) 10 items)).
Qed.

Lemma truncate_for_log_narrow (d : LogData) :
  forall max_chars, narrow (truncate_for_log d max_chars) = true.
Proof.
  induction d as [s|items IH|items IH|s] using LogData_nested_ind;
    intros max_chars; try done.
  - rewrite truncate_for_log_dict. simpl. apply andb_true_iff. split.
    + apply Nat.leb_le. rewrite length_map, length_take. lia.
    + apply Is_true_true, forallb_True, Forall_fmap, Forall_take.
      eapply Forall_impl; [exact IH|]. intros kv Hkv. simpl.
      apply Is_true_true, Hkv.
  - rewrite truncate_for_log_list. simpl. apply andb_true_iff. split.
    + apply Nat.leb_le. rewrite length_map, length_take. lia.
    + apply Is_true_true, forallb_True, Forall_fmap, Forall_take.
      eapply Forall_impl; [exact IH|]. intros item Hitem. simpl.
      apply Is_true_true, Hitem.
Qed.

Lemma truncate_for_log_again (d : LogData) :
  forall max_chars, 0 <= max_chars ->
    truncate_for_log (truncate_for_log d max_chars) max_chars =
    truncate_for_log d max_chars.
Proof.
  induction d as [s|items IH|items IH|s] using LogData_nested_ind;
    intros max_chars Hmax.
  - rewrite !truncate_for_log_str. f_equal.
    by apply truncate_for_display_again.
  - rewrite !truncate_for_log_dict. f_equal.
    rewrite <- fmap_take, take_take, Nat.min_id.
    change (map ?f (map ?g ?l)) with (f <$> (g <$> l)).
    rewrite <- list_fmap_compose. apply list_fmap_ext.
    intros i kv Hkv%list_elem_of_lookup_2%elem_of_take. destruct Hkv as (j & Hkv%list_elem_of_lookup_2 & _). simpl. f_equal.
    rewrite Forall_forall in IH. apply IH; [done|]. by apply Z.div_pos.
  - rewrite !truncate_for_log_list. f_equal.
    rewrite <- fmap_take, take_take, Nat.min_id.
    change (map ?f (map ?g ?l)) with (f <$> (g <$> l)).
    rewrite <- list_fmap_compose. apply list_fmap_ext.
    intros i item Hitem%list_elem_of_lookup_2%elem_of_take. destruct Hitem as (j & Hitem%list_elem_of_lookup_2 & _). simpl.
    rewrite Forall_forall in IH. apply IH; [done|]. by apply Z.div_pos.
  - change (truncate_for_log (L_other s) max_chars)
      with (truncate_for_log (L_str s) max_chars).
    rewrite !truncate_for_log_str. f_equal.
    by apply truncate_for_display_again.
Qed.

(** X23.  The log truncation returns strings only, in dicts and lists of
    at most ten entries at every level of nesting.  With a bound that is
    not negative, truncating its result again with the same bound changes
    nothing. *)
Theorem truncate_for_log_idempotent (d : LogData) (max_chars : Z) :
  narrow (truncate_for_log d max_chars) = true
  /\ (0 <= max_chars ->
      truncate_for_log (truncate_for_log d max_chars) max_chars =
      truncate_for_log d max_chars).
Proof.
  split; [apply truncate_for_log_narrow | apply truncate_for_log_again].
Qed.

End LogTruncation.

(** ** The properties at concrete sessions *)

Section Concrete.
Import Scenario.


(** A window of stagnant reflections, then windows with one
    substantive reflection, and a memory shorter than the window. *)
Example stagnation_window_examples :
  check_stagnation cfg [reflection_terse; reflection_terse] None = true
  /\ check_stagnation cfg [reflection_terse; reflection_continue] None = false
  /\ check_stagnation cfg [reflection_continue; reflection_terse] None = false
  /\ check_stagnation cfg [reflection_terse] None = false.
Proof. by vm_compute. Qed.

(** A fresh session has nothing in [search_memory]. *)
Lemma analyze_and_reflect_empty_memory_witness :
  search_memory (queued 4) = [] /\
  analyze_and_reflect cfg always_continue (queued 4) = Ok (queued 4).
Proof.
  split; [reflexivity|].
  apply (analyze_and_reflect_empty_memory cfg always_continue (queued 4)).
  reflexivity.
Defined.


Example scenario_A :
  let run := run_graph cfg always_continue recursion_limit (request 1) in
  map step_node run.1 =
    [N_generate_queries; N_execute_search; N_analyze_and_reflect;
     N_map_connections; N_synthesize_report]
  /\ exists final, run.2 = Completed final /\
       termination_reason final = Some "max_depth_reached" /\
       current_depth final = 1.
Proof. cbv zeta. split; [by vm_compute|]. eexists. by vm_compute. Qed.

(** Scenario B: the first reflection recommends to stop. *)
Example scenario_B :
  let run := run_graph cfg stop_at_once recursion_limit (request 4) in
  map step_node run.1 =
    [N_generate_queries; N_execute_search; N_analyze_and_reflect;
     N_map_connections; N_synthesize_report]
  /\ exists final, run.2 = Completed final /\
       termination_reason final = Some "reflection_recommended_stop".
Proof. cbv zeta. split; [by vm_compute|]. eexists. by vm_compute. Qed.

(** Scenario C: two reflections in a row under the length threshold. *)
Example scenario_C :
  let run := run_graph cfg (answering (fun _ => reflection_terse))
               recursion_limit (request 4) in
  executions N_analyze_and_reflect run.1 = 2
  /\ exists final, run.2 = Completed final /\
       termination_reason final = Some "stagnation_detected".
Proof. cbv zeta. split; [by vm_compute|]. eexists. by vm_compute. Qed.

(** Scenario D: five queries, the search for the third one raises.  The
    batch has no result list; the search node stores none of the four
    answers, leaves the five queries pending and records one error. *)
Lemma scenario_D_loses_the_batch :
  let st := queued 4 in
  parallel_search third_query_fails five_queries (context_of st) 2
    = Raise "APITimeoutError: request timed out"
  /\ ~ (exists slots,
          parallel_search third_query_fails five_queries (context_of st) 2
            = Ok slots)
  /\ exists st',
       execute_web_search cfg third_query_fails st = Ok st' /\
       search_memory st' = [] /\
       length (search_memory st') <> 4%nat /\
       search_count st' = 0 /\
       queries_executed st' = [] /\
       pending_queries st' = five_queries /\
       error_count st' = 1 /\
       map errors (search_iterations st')
         = [["APITimeoutError: request timed out"]].
Proof.
  cbv zeta. split; [by vm_compute|]. split.
  - intros [slots H]. vm_compute in H. discriminate H.
  - eexists. split; [by vm_compute|]. by vm_compute.
Qed.

Lemma search_batch_outcomes_witness :
  pending_queries (queued 4) <> [] /\
  exists q' e',
    parallel_search third_query_fails (batch_of cfg (queued 4))
      (context_of (queued 4)) state_max_concurrent_searches = Raise e' /\
    openai_web_search third_query_fails q' (context_of (queued 4)) = Raise e'.
Proof.
  assert (H : pending_queries (queued 4) <> []) by (vm_compute; discriminate).
  split; [exact H|].
  destruct (search_batch_outcomes cfg third_query_fails (queued 4) H) as [_ Hfail].
  destruct (Hfail "q3" "APITimeoutError: request timed out")
    as (q' & e' & _ & Hq' & Hp & _).
  - vm_compute. do 2 apply list_elem_of_further. apply list_elem_of_here.
  - reflexivity.
  - exists q', e'. by split.
Defined.

(** With all five searches answering, the results are stored in query
    order. *)
Example scenario_all_answer :
  exists st',
    execute_web_search cfg always_continue (queued 4) = Ok st' /\
    map sm_query (search_memory st') = five_queries /\
    search_count st' = 5 /\ pending_queries st' = [].
Proof. eexists. split; [by vm_compute|]. by vm_compute. Qed.

(** C4.  Query generation fails and leaves no query pending.  The
    graph goes on to the search node, [has_new_queries] is not consulted
    and [termination_reason] stays unset, although [has_new_queries]
    would answer "synthesize" on that state; nothing ever advances the
    depth, and the run ends at the recursion limit without a synthesis. *)
Lemma empty_query_batch_is_not_routed_to_synthesis :
  exists st1,
    generate_search_queries no_queries (fresh 4) = Ok st1 /\
    pending_queries st1 = [] /\
    follow_edges cfg N_generate_queries st1 = (Goto N_execute_search, st1) /\
    execute_web_search cfg no_queries st1 = Ok st1 /\
    termination_reason st1 = None /\
    has_new_queries st1
      = ("synthesize", set_termination_reason (Some "no_additional_queries") st1) /\
    (run_graph cfg no_queries recursion_limit (request 4)).2 = GraphRecursionError /\
    executions N_synthesize_report
      (run_graph cfg no_queries recursion_limit (request 4)).1 = 0 /\
    executions N_execute_search
      (run_graph cfg no_queries recursion_limit (request 4)).1 = 33.
Proof. eexists. split; [by vm_compute|]. by vm_compute. Qed.

(** The merger that counts mentions, applied twice to the same summary:
    the second application counts the mention again. *)
Lemma entity_merge_counts_twice :
  exists once twice,
    (merge_entities_with_llm cfg counting_merger ∅ "FTX collapsed").1 = Ok once /\
    (merge_entities_with_llm cfg counting_merger once "FTX collapsed").1 = Ok twice /\
    ent_mentions <$> once !! "FTX" = Some 1 /\
    ent_mentions <$> twice !! "FTX" = Some 2 /\
    twice <> once.
Proof.
  eexists. eexists. split; [by vm_compute|]. split; [by vm_compute|].
  split; [by vm_compute|]. split; [by vm_compute|].
  intros H. apply (f_equal (fun m => ent_mentions <$> m !! "FTX")) in H.
  vm_compute in H. discriminate H.
Qed.

Lemma entity_merge_twice_witness :
  (merge_entities_with_llm cfg always_continue ∅ "FTX collapsed").1
    = Ok (<["FTX" := ftx]> ∅) /\
  answers_stably always_continue ∅ "FTX collapsed" /\
  (merge_entities_with_llm cfg always_continue (<["FTX" := ftx]> ∅) "FTX collapsed").1
    = Ok (<["FTX" := ftx]> ∅).
Proof.
  assert (H1 : (merge_entities_with_llm cfg always_continue ∅ "FTX collapsed").1
               = Ok (<["FTX" := ftx]> ∅)) by reflexivity.
  assert (H2 : answers_stably always_continue ∅ "FTX collapsed").
  { intros attempt merged [= <-] _. simpl. by rewrite insert_insert_eq. }
  split; [exact H1|]. split; [exact H2|].
  exact (entity_merge_twice cfg always_continue ∅ _ "FTX collapsed" H1 H2).
Defined.

(** An edge to a node of neither node set, and a merger that answers
    with an empty dict (or with the existing graph): the edge is gone,
    no node stands for its endpoint, and nothing was logged. *)
Lemma graph_merge_drops_dangling_edge :
  dangling sbf_graph [] edge_to_alameda
  /\ merge_graph_with_llm cfg silent_merger sbf_graph [] [edge_to_alameda]
      = (Ok sbf_graph, [])
  /\ merge_graph_with_llm cfg forgetful_merger sbf_graph [] [edge_to_alameda]
      = (Ok sbf_graph, [])
  /\ ~ kept_with_endpoints sbf_graph edge_to_alameda
  /\ ~ rejection_recorded [] edge_to_alameda.
Proof.
  assert (Hno : ~ has_node (graph_nodes sbf_graph) "alameda_research").
  { intros (n & Hn & Hid). simpl in Hn.
    apply list_elem_of_singleton in Hn as ->. discriminate Hid. }
  split; [right; by rewrite app_nil_r|].
  split; [by vm_compute|]. split; [by vm_compute|]. split.
  - by intros (_ & _ & Ht).
  - intros (line & Hline & _). by apply elem_of_nil in Hline.
Qed.

Lemma graph_merge_defers_to_collaborator_witness :
  edge_to_alameda ∈ [edge_to_alameda] /\
  dangling sbf_graph [] edge_to_alameda /\
  (merge_graph_with_llm cfg silent_merger sbf_graph [] [edge_to_alameda]).2 = [] /\
  forall g,
    (merge_graph_with_llm cfg silent_merger sbf_graph [] [edge_to_alameda]).1 = Ok g ->
    exists attempt merged,
      graph_merge_run silent_merger (normalized sbf_graph) [] [edge_to_alameda] attempt
        = Ok merged /\
      g = (if graph_truthy merged then merged else normalized sbf_graph).
Proof.
  assert (H1 : edge_to_alameda ∈ [edge_to_alameda]) by apply list_elem_of_here.
  assert (H2 : dangling sbf_graph [] edge_to_alameda).
  { right. intros (n & Hn & Hid). simpl in Hn.
    apply list_elem_of_singleton in Hn as ->. discriminate Hid. }
  split; [exact H1|]. split; [exact H2|]. split; [reflexivity|].
  intros g Hg.
  destruct (graph_merge_defers_to_collaborator cfg silent_merger sbf_graph []
              [edge_to_alameda] edge_to_alameda H1 H2) as [Hout _].
  destruct (Hout g Hg) as (attempt & merged & Ha & Hb & _).
  by exists attempt, merged.
Defined.

End Concrete.

(** ** The further properties at concrete sessions *)

Section ConcreteStages.
Import Scenario Stages.

(** Two rate-limited attempts, then an answer. *)
Lemma retry_returns_first_success_witness :
  let out := retry_agent_execution third_time_lucky 3 in
  out.1 = Ok 7 /\
  failures out.2 = ["RateLimitError"; "RateLimitError"] /\
  delays out.2 = [1; 2].
Proof.
  apply (retry_returns_first_success third_time_lucky 3
           (fun _ => "RateLimitError") 7 2).
  - lia.
  - intros [|[|j]] Hj; [reflexivity | reflexivity | lia].
  - reflexivity.
Defined.

(** Two attempts, both overloaded. *)
Lemma retry_raises_last_exception_witness :
  let out := retry_agent_execution overloaded 2 in
  out.1 = Raise "overloaded_error" /\
  failures out.2 = ["overloaded_error"; "overloaded_error"] /\
  delays out.2 = [1] /\
  last out.2 = Some (LogRetriesExhausted 2).
Proof.
  apply (retry_raises_last_exception overloaded 2 (fun _ => "overloaded_error")).
  - lia.
  - reflexivity.
Defined.

Lemma merges_fail_without_attempts_witness :
  openai_max_retries no_retries <= 0 /\
  (merge_entities_with_llm no_retries always_continue ∅ "FTX collapsed").1 =
    Raise "TypeError: exceptions must derive from BaseException" /\
  (merge_graph_with_llm no_retries always_continue sbf_graph [] [edge_to_alameda]).1 =
    Raise "TypeError: exceptions must derive from BaseException".
Proof.
  assert (H : openai_max_retries no_retries <= 0) by (simpl; lia).
  split; [exact H|].
  destruct (merges_fail_without_attempts no_retries always_continue H) as [He Hg].
  split.
  - apply He. discriminate.
  - apply Hg. right. discriminate.
Defined.

Lemma entity_merge_keeps_entities_witness :
  (merge_entities_with_llm cfg always_continue ∅ "FTX collapsed").1
    = Ok (<["FTX" := ftx]> ∅) /\
  (<["FTX" := ftx]> ∅ = (∅ : gmap string EntityRecord) \/
   <["FTX" := ftx]> ∅ <> (∅ : gmap string EntityRecord) /\
   exists attempt,
     entity_merge_run always_continue ∅ "FTX collapsed" attempt
       = Ok (<["FTX" := ftx]> ∅)).
Proof.
  assert (H : (merge_entities_with_llm cfg always_continue ∅ "FTX collapsed").1
              = Ok (<["FTX" := ftx]> ∅)) by reflexivity.
  split; [exact H|].
  exact (proj1 (entity_merge_keeps_entities cfg always_continue ∅ _ _ H)).
Defined.

(** The five queued queries, all answered. *)
Lemma execute_web_search_stores_answers_witness :
  pending_queries (queued 4) <> [] /\
  parallel_search always_continue (batch_of cfg (queued 4)) (context_of (queued 4))
    state_max_concurrent_searches = Ok (map found five_queries) /\
  exists st',
    execute_web_search cfg always_continue (queued 4) = Ok st' /\
    search_memory st' =
      search_memory (queued 4) ++
        omap (stored_answer (current_depth (queued 4)))
             (zip (batch_of cfg (queued 4)) (map found five_queries)).
Proof.
  assert (H1 : pending_queries (queued 4) <> []) by (vm_compute; discriminate).
  assert (H2 : parallel_search always_continue (batch_of cfg (queued 4))
                 (context_of (queued 4)) state_max_concurrent_searches
               = Ok (map found five_queries)) by (vm_compute; reflexivity).
  split; [exact H1|]. split; [exact H2|].
  destruct (execute_web_search_stores_answers cfg always_continue (queued 4) _ H1 H2)
    as (st' & it & Hrun & Hmem & _).
  exists st'. by split.
Defined.

Lemma execute_web_search_conserves_queries_witness :
  execute_web_search cfg always_continue (queued 4) = Ok searched /\
  queries_executed searched ++ pending_queries searched =
    queries_executed (queued 4) ++ pending_queries (queued 4)
  /\ search_count searched - search_count (queued 4) =
     PyList.len (queries_executed searched) - PyList.len (queries_executed (queued 4))
  /\ PyList.len (search_memory searched) - PyList.len (search_memory (queued 4)) <=
     PyList.len (queries_executed searched) - PyList.len (queries_executed (queued 4)).
Proof.
  assert (H : execute_web_search cfg always_continue (queued 4) = Ok searched)
    by (vm_compute; reflexivity).
  split; [exact H|].
  exact (execute_web_search_conserves_queries cfg always_continue _ _ H).
Defined.

Lemma execute_web_search_consumes_batch_witness :
  1 <= max_queries_per_depth cfg /\
  pending_queries (queued 4) <> [] /\
  execute_web_search cfg always_continue (queued 4) = Ok searched /\
  error_count searched = error_count (queued 4) /\
  exists batch,
    pending_queries (queued 4) = batch ++ pending_queries searched /\
    queries_executed searched = queries_executed (queued 4) ++ batch /\
    1 <= PyList.len batch <= max_queries_per_depth cfg.
Proof.
  assert (H1 : 1 <= max_queries_per_depth cfg) by (simpl; lia).
  assert (H2 : pending_queries (queued 4) <> []) by (vm_compute; discriminate).
  assert (H3 : execute_web_search cfg always_continue (queued 4) = Ok searched)
    by (vm_compute; reflexivity).
  assert (H4 : error_count searched = error_count (queued 4))
    by (vm_compute; reflexivity).
  split; [exact H1|]. split; [exact H2|]. split; [exact H3|]. split; [exact H4|].
  exact (execute_web_search_consumes_batch cfg always_continue _ _ H1 H2 H3 H4).
Defined.

Lemma analyze_and_reflect_effects_witness :
  search_memory searched <> [] /\
  analyze_and_reflect cfg always_continue searched = Ok analysed /\
  reflection_memory analysed = reflection_memory searched ++ [reflection_continue] /\
  current_depth analysed = current_depth searched + 1 /\
  search_memory analysed = search_memory searched.
Proof.
  assert (H1 : search_memory searched <> []) by (vm_compute; discriminate).
  assert (H2 : analyze_and_reflect cfg always_continue searched = Ok analysed)
    by (vm_compute; reflexivity).
  split; [exact H1|]. split; [exact H2|].
  destruct (analyze_and_reflect_effects cfg always_continue _ _ H1 H2)
    as ((r & Hr & Hmem) & Hdepth & _ & _ & Hsm & _).
  injection Hr as <-. by repeat split.
Defined.

Lemma map_connections_effects_witness :
  exists st',
    map_connections cfg always_continue analysed = Ok st' /\
    graph_truthy (entity_graph st') = true /\
    current_depth st' = current_depth analysed /\
    discovered_entities st' = discovered_entities analysed.
Proof.
  destruct (map_connections cfg always_continue analysed) as [st'|e|] eqn:H;
    [|vm_compute in H; discriminate H..].
  exists st'. split; [done|].
  destruct (map_connections_effects cfg always_continue _ _ H)
    as (_ & Hent & Hdepth & _ & _ & Hde & _).
  destruct Hent as (out & _ & _ & _ & Hg).
  - intros Hempty. apply (f_equal (fun m => ent_mentions <$> m !! "FTX")) in Hempty.
    vm_compute in Hempty. discriminate Hempty.
  - by repeat split.
Defined.

(** A synthesis on a state whose termination reason is not set. *)
Lemma synthesize_report_effects_witness :
  exists st',
    synthesize_report always_continue analysed = Ok st' /\
    should_continue st' = false /\
    termination_reason st' = Some "report_synthesized" /\
    md_termination_reason <$> final_report st' = Some None.
Proof.
  destruct (synthesize_report always_continue analysed) as [st'|e|] eqn:H;
    [|vm_compute in H; discriminate H..].
  exists st'. split; [done|].
  destruct (synthesize_report_effects always_continue _ _ H)
    as (Hsc & (report & Hrep & _ & _ & _ & _ & Hreason) & _ & Hunset).
  split; [exact Hsc|]. split.
  - by apply Hunset.
  - rewrite Hrep. simpl. by rewrite Hreason.
Defined.

(** Scenario A: the first step and the last one. *)
Lemma run_is_append_only_witness :
  let run := run_graph cfg always_continue recursion_limit (request 1) in
  exists a b,
    run.1 !! 0%nat = Some a /\ run.1 !! 4%nat = Some b /\
    grows (step_pre a) (step_post b) /\
    (forall final, run.2 = Completed final -> grows (step_pre a) final).
Proof.
  cbv zeta.
  destruct ((run_graph cfg always_continue recursion_limit (request 1)).1 !! 0%nat)
    as [a|] eqn:Ha; [|vm_compute in Ha; discriminate Ha].
  destruct ((run_graph cfg always_continue recursion_limit (request 1)).1 !! 4%nat)
    as [b|] eqn:Hb; [|vm_compute in Hb; discriminate Hb].
  exists a, b. split; [done|]. split; [done|].
  apply (run_is_append_only cfg always_continue recursion_limit (request 1) 0 4 a b);
    [lia | exact Ha | exact Hb].
Defined.

Lemma run_counters_agree_witness :
  let run := run_graph cfg always_continue recursion_limit (request 1) in
  exists s,
    run.1 !! 2%nat = Some s /\
    counters_agree (step_pre s) /\ counters_agree (step_post s).
Proof.
  cbv zeta.
  destruct ((run_graph cfg always_continue recursion_limit (request 1)).1 !! 2%nat)
    as [s|] eqn:Hs; [|vm_compute in Hs; discriminate Hs].
  exists s. split; [done|].
  destruct (run_counters_agree cfg always_continue recursion_limit (request 1) s
              (list_elem_of_lookup_2 _ _ _ Hs)) as (Hpre & Hpost & _).
  by split.
Defined.

(** Scenario A: the analysis takes the depth from 0 to the cap of 1. *)
Lemma depth_stays_within_cap_witness :
  let run := run_graph cfg always_continue recursion_limit (request 1) in
  exists s,
    run.1 !! 2%nat = Some s /\
    0 <= current_depth (step_pre s) <= current_depth (step_post s) /\
    current_depth (step_post s) <= Z.max 1 (i_max_depth (request 1)).
Proof.
  cbv zeta.
  destruct ((run_graph cfg always_continue recursion_limit (request 1)).1 !! 2%nat)
    as [s|] eqn:Hs; [|vm_compute in Hs; discriminate Hs].
  exists s. split; [done|].
  destruct (depth_stays_within_cap cfg always_continue recursion_limit (request 1) s
              (list_elem_of_lookup_2 _ _ _ Hs)) as (Hpre & _ & Hpost & _).
  by split.
Defined.


Lemma reflection_prompt_shows_latest_searches_witness :
  let run := run_graph cfg always_continue recursion_limit (request 1) in
  exists a b,
    run.1 !! 1%nat = Some a /\ run.1 !! 2%nat = Some b /\
    step_node b = N_analyze_and_reflect /\
    step_node a = N_execute_search /\
    search_memory (step_pre b) =
      search_memory (step_pre a) ++ current_depth_searches (step_pre b).
Proof.
  cbv zeta.
  destruct ((run_graph cfg always_continue recursion_limit (request 1)).1 !! 1%nat)
    as [a|] eqn:Ha; [|vm_compute in Ha; discriminate Ha].
  destruct ((run_graph cfg always_continue recursion_limit (request 1)).1 !! 2%nat)
    as [b|] eqn:Hb; [|vm_compute in Hb; discriminate Hb].
  assert (Hnode : step_node b = N_analyze_and_reflect).
  { vm_compute in Hb. by injection Hb as <-. }
  exists a, b. split; [done|]. split; [done|]. split; [exact Hnode|].
  exact (reflection_prompt_shows_latest_searches cfg always_continue recursion_limit
           (request 1) 1 a b Ha Hb Hnode).
Defined.

Lemma truncate_for_display_idempotent_witness :
  0 <= 5 /\
  truncate_for_display "max_depth_reached" 5 = "max_d..." /\
  truncate_for_display (truncate_for_display "max_depth_reached" 5) 5 =
    truncate_for_display "max_depth_reached" 5.
Proof.
  assert (H : 0 <= 5) by lia.
  split; [exact H|]. split; [reflexivity|].
  exact (proj2 (proj2 (truncate_for_display_idempotent "max_depth_reached" 5 H))).
Defined.

End ConcreteStages.
